(** * Recording aggregation engine: [useRecordings.ts]

    A shallow embedding of the client-side fetching hook
    [src/hooks/useRecordings.ts]: the phone-recording paginator
    ([fetchAllPhoneRecordings]), the meeting-recording normaliser
    ([fetchAllMeetingRecordings]) and the orchestrator ([fetchRecordings]),
    followed by the properties the design document states about them.

    Conventions.
    - A settled promise is a value of [Thrown + A]: [inl e] is a rejection
      (a thrown value), [inr a] a fulfilment.  [await] is the bind of that
      monad, so a rejection aborts the rest of the [async] body.
    - The network is an oracle: the k-th call of [fetch] with a given URL is
      answered by [net k url].
    - A JavaScript number is [Fin z], [PosInf], [NegInf] or [NaN].  Finite
      numbers are the doubles with an integer value; their sum is rounded
      as a double is (53 significant bits, ties to even, overflow to an
      infinity).  Numbers with a fractional part are not modelled.
    - Fields that the code reads with a run-time type test ([typeof]) are
      dynamically typed values; every other field has its declared type,
      [option] standing for an optional (absent, [undefined] or [null])
      field. *)

From Stdlib Require Import ZArith List String Ascii Bool Lia.
From Stdlib Require Import DecimalString Sorting.Sorted Permutation.
Import ListNotations.
Local Open Scope string_scope.
Local Open Scope list_scope.

(* ===================================================================== *)
(** * Part I: definitions                                                 *)
(* ===================================================================== *)

(** ** JavaScript values *)

Module JS.

Inductive number : Type :=
| Fin (z : Z)
| PosInf
| NegInf
| NaN.

(** The double nearest to a positive integer [a], as an integer; [None]
    when it is out of range.  An integer below 2^53 is a double itself; a
    larger one keeps its 53 leading bits, rounded to nearest with ties to
    even, and from 2^1024 on the result is infinite. *)
Definition round_magnitude (a : Z) : option Z :=
  let n := Z.log2 a in
  if (n <? 53)%Z then Some a
  else
    let s := (n - 52)%Z in
    let q := (a / 2 ^ s)%Z in
    let r := (a mod 2 ^ s)%Z in
    let half := (2 ^ (s - 1))%Z in
    let q' :=
      if (half <? r)%Z || ((r =? half)%Z && Z.odd q) then (q + 1)%Z else q in
    let m := (q' * 2 ^ s)%Z in
    if (2 ^ 1024 <=? m)%Z then None else Some m.

(** The number that an integer rounds to. *)
Definition of_Z (z : Z) : number :=
  match z with
  | Z0 => Fin 0
  | Zpos _ =>
      match round_magnitude z with
      | Some m => Fin m
      | None => PosInf
      end
  | Zneg p =>
      match round_magnitude (Zpos p) with
      | Some m => Fin (- m)
      | None => NegInf
      end
  end.
Arguments of_Z : simpl never.

(** [a + b] on numbers: the exact sum of two finite numbers, rounded. *)
Definition add (a b : number) : number :=
  match a, b with
  | NaN, _ | _, NaN => NaN
  | PosInf, NegInf | NegInf, PosInf => NaN
  | PosInf, _ | _, PosInf => PosInf
  | NegInf, _ | _, NegInf => NegInf
  | Fin x, Fin y => of_Z (x + y)
  end.

Definition isNaN (n : number) : bool :=
  match n with NaN => true | _ => false end.

(** [Math.min(a, b)]. *)
Definition Math_min (a b : number) : number :=
  match a, b with
  | NaN, _ | _, NaN => NaN
  | NegInf, _ | _, NegInf => NegInf
  | PosInf, x | x, PosInf => x
  | Fin x, Fin y => Fin (Z.min x y)
  end.

(** [String(n)] for a number. *)
Definition String_of_number (n : number) : string :=
  match n with
  | Fin z => NilZero.string_of_int (Z.to_int z)
  | PosInf => "Infinity"
  | NegInf => "-Infinity"
  | NaN => "NaN"
  end.

(** ToBoolean on numbers and strings. *)
Definition truthy_number (n : number) : bool :=
  match n with
  | Fin 0 => false
  | NaN => false
  | _ => true
  end.

Definition truthy_string (s : string) : bool :=
  match s with
  | EmptyString => false
  | String _ _ => true
  end.

(** A dynamically typed value, as far as [typeof] tells values apart. *)
Inductive value : Type :=
| VUndefined
| VNull
| VBool (b : bool)
| VNum (n : number)
| VStr (s : string)
| VObject.

Inductive type_tag : Type :=
| TUndefined | TObject | TBoolean | TNumber | TString.

Definition typeof (v : value) : type_tag :=
  match v with
  | VUndefined => TUndefined
  | VNull => TObject
  | VBool _ => TBoolean
  | VNum _ => TNumber
  | VStr _ => TString
  | VObject => TObject
  end.

Definition truthy (v : value) : bool :=
  match v with
  | VUndefined | VNull => false
  | VBool b => b
  | VNum n => truthy_number n
  | VStr s => truthy_string s
  | VObject => true
  end.

(** [String(v)]. *)
Definition String_of_value (v : value) : string :=
  match v with
  | VUndefined => "undefined"
  | VNull => "null"
  | VBool true => "true"
  | VBool false => "false"
  | VNum n => String_of_number n
  | VStr s => s
  | VObject => "[object Object]"
  end.

(** [a || b] and [a ?? b] on dynamically typed values. *)
Definition or (a b : value) : value := if truthy a then a else b.

Definition nullish (a b : value) : value :=
  match a with
  | VUndefined | VNull => b
  | _ => a
  end.

(** The same operators on an optional string field, [None] standing for
    [undefined] or [null].  The empty string is falsy but not nullish. *)
Definition truthy_opt (a : option string) : bool :=
  match a with
  | Some s => truthy_string s
  | None => false
  end.

Definition or_opt (a b : option string) : option string :=
  if truthy_opt a then a else b.

(** [a || d] where the last operand [d] is a string. *)
Definition or_str (a : option string) (d : string) : string :=
  match a with
  | Some s => if truthy_string s then s else d
  | None => d
  end.

(** [a ?? b], with an optional and with a defined right operand. *)
Definition coalesce {A : Type} (a b : option A) : option A :=
  match a with
  | Some _ => a
  | None => b
  end.

Definition coalesce_def {A : Type} (a : option A) (d : A) : A :=
  match a with
  | Some x => x
  | None => d
  end.

(** What a [throw] or a rejected promise carries: an [Error] object (its
    [name] and [message]) or any other value. *)
Inductive Thrown : Type :=
| ErrorObject (name message : string)
| ThrownValue (v : value).

(** [e?.message]. *)
Definition message_of (e : Thrown) : option string :=
  match e with
  | ErrorObject _ msg => Some msg
  | ThrownValue _ => None
  end.

(** [String(e)]: [Error.prototype.toString] for an error object. *)
Definition String_of_thrown (e : Thrown) : string :=
  match e with
  | ErrorObject name msg =>
      if truthy_string msg
      then if truthy_string name then name ++ ": " ++ msg else msg
      else name
  | ThrownValue v => String_of_value v
  end.

(** [new Error(msg)]. *)
Definition new_Error (msg : string) : Thrown := ErrorObject "Error" msg.

(** A settled promise. *)
Definition Promise (A : Type) : Type := (Thrown + A)%type.

Definition resolve {A : Type} (a : A) : Promise A := inr a.
Definition reject {A : Type} (e : Thrown) : Promise A := inl e.

Definition await {A B : Type} (p : Promise A) (k : A -> Promise B)
  : Promise B :=
  match p with
  | inl e => inl e
  | inr a => k a
  end.

End JS.

Notation "x <- 'await' p ;; k" :=
  (JS.await p (fun x => k))
  (at level 61, p at next level, right associativity).

(** ** The Date built-ins used by the normaliser *)

Module JSDate.

Definition msPerDay : Z := 86400000.

(** Civil date of a day number counted from 1970-01-01. *)
Definition civil_from_days (days : Z) : Z * Z * Z :=
  let z := (days + 719468)%Z in
  let era := (z / 146097)%Z in
  let doe := (z - era * 146097)%Z in
  let yoe := ((doe - doe / 1460 + doe / 36524 - doe / 146096) / 365)%Z in
  let doy := (doe - (365 * yoe + yoe / 4 - yoe / 100))%Z in
  let mp := ((5 * doy + 2) / 153)%Z in
  let d := (doy - (153 * mp + 2) / 5 + 1)%Z in
  let m := (if (mp <? 10)%Z then mp + 3 else mp - 9)%Z in
  let y := (yoe + era * 400 + (if (m <=? 2)%Z then 1 else 0))%Z in
  (y, m, d).

Definition digits (z : Z) : string :=
  NilZero.string_of_uint (N.to_uint (Z.to_N z)).

Fixpoint zeros (n : nat) : string :=
  match n with
  | O => ""
  | S k => "0" ++ zeros k
  end.

(** [z] in decimal, padded with zeros on the left to [width] digits. *)
Definition pad (width : nat) (z : Z) : string :=
  let s := digits z in
  zeros (width - String.length s) ++ s.

Definition year_string (y : Z) : string :=
  if ((0 <=? y) && (y <=? 9999))%Z%bool then pad 4 y
  else if (y <? 0)%Z then "-" ++ pad 6 (- y)
  else "+" ++ pad 6 y.

(** [Date.prototype.toISOString] of a valid time value (milliseconds since
    the epoch, UTC). *)
Definition toISOString (t : Z) : string :=
  let days := (t / msPerDay)%Z in
  let ms := (t mod msPerDay)%Z in
  let '(y, m, d) := civil_from_days days in
  year_string y ++ "-" ++ pad 2 m ++ "-" ++ pad 2 d ++ "T"
    ++ pad 2 (ms / 3600000) ++ ":" ++ pad 2 ((ms / 60000) mod 60) ++ ":"
    ++ pad 2 ((ms / 1000) mod 60) ++ "." ++ pad 3 (ms mod 1000) ++ "Z".

End JSDate.

(** ** The data model ([../types]) *)

(** The type declarations are not part of the hook's file; the records below
    have the fields the hook reads and writes. *)

Inductive RecordingSource : Type :=
| phone
| meetings.

(** [SourceFilter], the caller's selector. *)
Definition SourceFilter : Type := RecordingSource.

Definition SourceFilter_eqb (a b : SourceFilter) : bool :=
  match a, b with
  | phone, phone | meetings, meetings => true
  | _, _ => false
  end.

(** One embedded file descriptor of a meeting. *)
Record RecordingFile : Type := mkRecordingFile {
  f_id : option string;
  f_recording_start : option string;
  f_recording_end : option string;
  f_download_url : option string;
  f_file_size : JS.value;
  f_file_type : JS.value
}.

Record Owner : Type := mkOwner {
  owner_type : string;
  owner_id : option string;
  owner_name : string
}.

Record Site : Type := mkSite {
  site_id : string;
  site_name : string
}.

(** The canonical record. *)
Record Recording : Type := mkRecording {
  id : string;
  caller_number : string;
  caller_number_type : JS.number;
  callee_number : string;
  callee_number_type : JS.number;
  date_time : option string;
  end_time : option string;
  duration : JS.number;
  recording_type : string;
  download_url : option string;
  caller_name : option string;
  callee_name : string;
  owner : Owner;
  site : Site;
  direction : string;
  disclaimer_status : option JS.number;
  source : option RecordingSource;
  topic : option string;
  host_name : option string;
  host_email : option string;
  meetingId : option string;
  file_size : option JS.number;
  recording_files : option (list RecordingFile);
  files_count : option nat;
  files_types : option (list string);
  autoDelete : JS.value;
  autoDeleteDate : JS.value
}.

(** [{ ...r, source: s }]: every field of [r] is copied, [source] is
    overridden. *)
Definition with_source (r : Recording) (s : RecordingSource) : Recording :=
  {| id := id r;
     caller_number := caller_number r;
     caller_number_type := caller_number_type r;
     callee_number := callee_number r;
     callee_number_type := callee_number_type r;
     date_time := date_time r;
     end_time := end_time r;
     duration := duration r;
     recording_type := recording_type r;
     download_url := download_url r;
     caller_name := caller_name r;
     callee_name := callee_name r;
     owner := owner r;
     site := site r;
     direction := direction r;
     disclaimer_status := disclaimer_status r;
     source := Some s;
     topic := topic r;
     host_name := host_name r;
     host_email := host_email r;
     meetingId := meetingId r;
     file_size := file_size r;
     recording_files := recording_files r;
     files_count := files_count r;
     files_types := files_types r;
     autoDelete := autoDelete r;
     autoDeleteDate := autoDeleteDate r |}.

(** [ApiResponse]: a page of the phone endpoint, and the result envelope the
    hook stores. *)
Record ApiResponse : Type := mkApiResponse {
  api_from : option string;
  api_to : option string;
  api_total_records : option nat;
  api_next_page_token : option string;
  api_recordings : option (list Recording)
}.

(** One session of the meeting endpoint.  The fields from [m_hostEmail] on
    are the ones the hook reads through the [any] view [mm]. *)
Record Meeting : Type := mkMeeting {
  m_uuid : option string;
  m_id : JS.value;
  m_topic : option string;
  m_start_time : option string;
  m_duration : option JS.number;
  m_host_id : option string;
  m_recording_files : option (list RecordingFile);
  m_hostEmail : option string;
  m_host_email : option string;
  m_owner_email : option string;
  m_hostName : option string;
  m_owner_name : option string;
  m_autoDelete : JS.value;
  m_auto_delete : JS.value;
  m_autoDeleteDate : JS.value;
  m_auto_delete_date : JS.value
}.

Record MeetingApiResponse : Type := mkMeetingApiResponse {
  mapi_from : option string;
  mapi_to : option string;
  mapi_meetings : option (list Meeting)
}.

(** ** HTTP *)

Module Http.

(** [URLSearchParams] as an ordered list of pairs. *)
Definition URLSearchParams : Type := list (string * string).

(** [params.set(k, v)]: the first pair named [k] takes the value [v] and
    the other pairs named [k] are removed; a new pair is appended when
    there is none. *)
Fixpoint remove_key (k : string) (ps : URLSearchParams) : URLSearchParams :=
  match ps with
  | [] => []
  | (k', v') :: tl =>
      if String.eqb k k' then remove_key k tl else (k', v') :: remove_key k tl
  end.

Fixpoint set (k v : string) (ps : URLSearchParams) : URLSearchParams :=
  match ps with
  | [] => [(k, v)]
  | (k', v') :: tl =>
      if String.eqb k k' then (k, v) :: remove_key k tl
      else (k', v') :: set k v tl
  end.

(** A request URL: the path and the query string before its encoding. *)
Record Url : Type := mkUrl {
  path : string;
  query : URLSearchParams
}.

(** What [fetch] gives back: a rejection (transport failure), or a
    response with its [ok] flag, its status, its body as [text()] and the
    outcome of [json()]. *)
Record Response (T : Type) : Type := mkResponse {
  ok : bool;
  status : nat;
  text : string;
  json : JS.Promise T
}.
Arguments mkResponse {T}.
Arguments ok {T}.
Arguments status {T}.
Arguments text {T}.
Arguments json {T}.

Definition Reply (T : Type) : Type := JS.Promise (Response T).

(** [String(res.status)]. *)
Definition String_of_status (n : nat) : string :=
  NilZero.string_of_uint (Nat.to_uint n).

(** [fetchJson<T>(url)], given the reply of [fetch(url)]. *)
Definition fetchJson {T : Type} (reply : Reply T) : JS.Promise T :=
  res <- await reply ;;
  if negb (ok res)
  then JS.reject
         (JS.new_Error ("HTTP " ++ String_of_status (status res) ++ ": "
                          ++ text res))
  else json res.

End Http.

(** ** The hook *)

Definition MAX_PHONE_PAGES : nat := 20.
Arguments MAX_PHONE_PAGES : simpl never.

(** The result of either fetcher: [{ from, to, recordings }]. *)
Record Fetched : Type := mkFetched {
  fetched_from : string;
  fetched_to : string;
  fetched_recordings : list Recording
}.

(** The local variables of the paginator's loop. *)
Record PagerState : Type := mkPagerState {
  allRecs : list Recording;
  nextToken : option string;
  loops : nat;
  apiFrom : option string;
  apiTo : option string
}.

(** What a run of the paginator leaves behind: the requests it issued, in
    order, and the settled promise. *)
Record Walk : Type := mkWalk {
  requests : list Http.Url;
  settled : JS.Promise Fetched
}.

(** The React state of the hook. *)
Record HookState : Type := mkHookState {
  data : option ApiResponse;
  loading : bool;
  error : option string
}.

Definition setData (d : option ApiResponse) (st : HookState) : HookState :=
  {| data := d; loading := loading st; error := error st |}.

Definition setLoading (b : bool) (st : HookState) : HookState :=
  {| data := data st; loading := b; error := error st |}.

Definition setError (e : option string) (st : HookState) : HookState :=
  {| data := data st; loading := loading st; error := e |}.

Section UseRecordings.

(** The arguments of [useRecordings]. *)
Variables from to : string.
Variable pageSize : JS.number.
Variable source_filter : SourceFilter.  (* the argument [source] *)
Variable demoMode : bool.

(** The environment: the two endpoints, [Date] parsing ([None] is an
    invalid date, whose [getTime()] is [NaN]) and the demo generator. *)
Variable phone_net : nat -> Http.Url -> Http.Reply ApiResponse.
Variable meeting_net : Http.Url -> Http.Reply MeetingApiResponse.
Variable Date_parse : string -> option Z.
Variable generateDemoRecordings :
  string -> string -> JS.Promise (list Recording).

(** [Math.min(pageSize || 100, 300)]. *)
Definition zoomPageSize : JS.number :=
  JS.Math_min
    (if JS.truthy_number pageSize then pageSize else JS.Fin 100)
    (JS.Fin 300).

(** *** [fetchAllPhoneRecordings] *)

(** The query of one page request. *)
Definition phone_params (token : option string) : Http.URLSearchParams :=
  let params := [] in
  let params := Http.set "from" from params in
  let params := Http.set "to" to params in
  let params := Http.set "page_size" (JS.String_of_number zoomPageSize) params in
  let params := Http.set "query_date_type" "start_time" params in
  match token with
  | Some t =>
      if JS.truthy_string t then Http.set "next_page_token" t params
      else params
  | None => params
  end.

Definition phone_url (token : option string) : Http.Url :=
  {| Http.path := "/api/phone/recordings"; Http.query := phone_params token |}.

(** The body of the [do ... while] loop after the page has arrived. *)
Definition phone_step (st : PagerState) (apiPage : ApiResponse) : PagerState :=
  let recs :=
    map (fun r => with_source r phone)
        (JS.coalesce_def (api_recordings apiPage) []) in
  {| allRecs := allRecs st ++ recs;
     nextToken := JS.coalesce (api_next_page_token apiPage) None;
     loops := loops st + 1;
     apiFrom :=
       Some (JS.coalesce_def (JS.coalesce (apiFrom st) (api_from apiPage)) from);
     apiTo :=
       Some (JS.coalesce_def (JS.coalesce (api_to apiPage) (apiTo st)) to) |}.

(** [nextToken && loops < MAX_PHONE_PAGES]. *)
Definition phone_continue (st : PagerState) : bool :=
  JS.truthy_opt (nextToken st) && (loops st <? MAX_PHONE_PAGES)%nat.

Definition phone_return (st : PagerState) : Fetched :=
  {| fetched_from := JS.coalesce_def (apiFrom st) from;
     fetched_to := JS.coalesce_def (apiTo st) to;
     fetched_recordings := allRecs st |}.

Definition sent (url : Http.Url) (w : Walk) : Walk :=
  {| requests := url :: requests w; settled := settled w |}.

(** The loop.  [fuel] bounds the number of iterations the model follows;
    [None] means the bound was reached before the loop ended. *)
Fixpoint phone_loop (fuel : nat) (st : PagerState) : option Walk :=
  match fuel with
  | O => None
  | S fuel' =>
      let url := phone_url (nextToken st) in
      match Http.fetchJson (phone_net (loops st) url) with
      | inl e => Some {| requests := [url]; settled := JS.reject e |}
      | inr apiPage =>
          let st' := phone_step st apiPage in
          if phone_continue st'
          then option_map (sent url) (phone_loop fuel' st')
          else Some {| requests := [url];
                       settled := JS.resolve (phone_return st') |}
      end
  end.

Definition phone_init : PagerState :=
  {| allRecs := []; nextToken := None; loops := 0;
     apiFrom := None; apiTo := None |}.

Definition fetchAllPhoneRecordings (fuel : nat) : option Walk :=
  phone_loop fuel phone_init.

(** *** [fetchAllMeetingRecordings] *)

Definition meeting_url : Http.Url :=
  let params := [] in
  let params := Http.set "from" from params in
  let params := Http.set "to" to params in
  let params := Http.set "page_size" (JS.String_of_number zoomPageSize) params in
  {| Http.path := "/api/meeting/recordings"; Http.query := params |}.

Definition hostEmail (mm : Meeting) : string :=
  JS.or_str
    (JS.or_opt (JS.or_opt (m_hostEmail mm) (m_host_email mm)) (m_owner_email mm))
    "".

Definition hostName (mm : Meeting) : string :=
  JS.or_str
    (JS.or_opt
       (JS.or_opt (JS.or_opt (m_hostName mm) (m_owner_name mm))
                  (Some (hostEmail mm)))
       (m_topic mm))
    "Unknown".

(** [Array.isArray(m.recording_files) ? m.recording_files : []]. *)
Definition files (m : Meeting) : list RecordingFile :=
  match m_recording_files m with
  | Some fs => fs
  | None => []
  end.

(** The dates pushed to [starts], as time values. *)
Fixpoint starts (fs : list RecordingFile) : list Z :=
  match fs with
  | [] => []
  | f :: tl =>
      match f_recording_start f with
      | Some s =>
          if JS.truthy_string s
          then match Date_parse s with
               | Some t => t :: starts tl
               | None => starts tl
               end
          else starts tl
      | None => starts tl
      end
  end.

(** [starts.sort((a, b) => a.getTime() - b.getTime())]. *)
Fixpoint insert_time (t : Z) (l : list Z) : list Z :=
  match l with
  | [] => [t]
  | u :: tl => if (t <=? u)%Z then t :: l else u :: insert_time t tl
  end.

Fixpoint sort_times (l : list Z) : list Z :=
  match l with
  | [] => []
  | t :: tl => insert_time t (sort_times tl)
  end.

Definition firstStartIso (fs : list RecordingFile) : option string :=
  match sort_times (starts fs) with
  | [] => None
  | d :: _ => Some (JSDate.toISOString d)
  end.

(** The [reduce] over the files. *)
Definition size_or_zero (f : RecordingFile) : JS.number :=
  match f_file_size f with
  | JS.VNum n => if negb (JS.isNaN n) then n else JS.Fin 0
  | _ => JS.Fin 0
  end.

Definition totalSizeBytes (fs : list RecordingFile) : JS.number :=
  fold_left (fun acc f => JS.add acc (size_or_zero f)) fs (JS.Fin 0).

(** [Array.from(new Set(...))]: the first occurrence of each string, in
    order. *)
Fixpoint dedup (seen : list string) (l : list string) : list string :=
  match l with
  | [] => []
  | s :: tl =>
      if existsb (String.eqb s) seen then dedup seen tl
      else s :: dedup (s :: seen) tl
  end.

Definition nonempty_string (v : JS.value) : list string :=
  match v with
  | JS.VStr s => if (0 <? String.length s)%nat then [s] else []
  | _ => []
  end.

Definition fileTypes (fs : list RecordingFile) : list string :=
  dedup []
    (flat_map
       (fun f => nonempty_string (JS.or (f_file_type f) (JS.VStr "")))
       fs).

Definition or_string (a b : string) : string :=
  if JS.truthy_string a then a else b.

(** The record pushed for one session. *)
Definition meeting_record (m : Meeting) : Recording :=
  let total := totalSizeBytes (files m) in
  {| id := JS.or_str (m_uuid m) (JS.String_of_value (m_id m));
     caller_number := "";
     caller_number_type := JS.Fin 0;
     callee_number := "";
     callee_number_type := JS.Fin 0;
     date_time := JS.or_opt (firstStartIso (files m)) (m_start_time m);
     end_time := None;
     duration := JS.coalesce_def (m_duration m) (JS.Fin 0);
     recording_type := "Meeting";
     download_url := None;
     caller_name := m_topic m;
     callee_name := or_string (hostEmail m) (hostName m);
     owner :=
       {| owner_type := "user";
          owner_id := m_host_id m;
          owner_name :=
            or_string (or_string (hostName m) (hostEmail m)) "Unknown" |};
     site := {| site_id := ""; site_name := "Meeting" |};
     direction := "meeting";
     disclaimer_status := None;
     source := Some meetings;
     topic := m_topic m;
     host_name := Some (hostName m);
     host_email := Some (hostEmail m);
     meetingId := m_uuid m;
     file_size := if JS.truthy_number total then Some total else None;
     recording_files := Some (files m);
     files_count := Some (List.length (files m));
     files_types := Some (fileTypes (files m));
     autoDelete := JS.nullish (m_autoDelete m) (m_auto_delete m);
     autoDeleteDate := JS.nullish (m_autoDeleteDate m) (m_auto_delete_date m) |}.

Definition fetchAllMeetingRecordings : JS.Promise Fetched :=
  api <- await Http.fetchJson (meeting_net meeting_url) ;;
  JS.resolve
    {| fetched_from := JS.coalesce_def (mapi_from api) from;
       fetched_to := JS.coalesce_def (mapi_to api) to;
       fetched_recordings :=
         map meeting_record (JS.coalesce_def (mapi_meetings api) []) |}.

(** *** [fetchRecordings] *)

Definition envelope (f t : string) (recs : list Recording) : ApiResponse :=
  {| api_from := Some f;
     api_to := Some t;
     api_total_records := Some (List.length recs);
     api_next_page_token := None;
     api_recordings := Some recs |}.

Definition envelope_of (r : Fetched) : ApiResponse :=
  envelope (fetched_from r) (fetched_to r) (fetched_recordings r).

(** The body of the [try] block, up to its call of [setData]: the selected
    path and the envelope built from its result. *)
Definition dispatch (fuel : nat) : option (JS.Promise ApiResponse) :=
  if demoMode
  then Some (recs <- await generateDemoRecordings from to ;;
             JS.resolve (envelope from to recs))
  else if SourceFilter_eqb source_filter phone
  then option_map
         (fun w => r <- await settled w ;; JS.resolve (envelope_of r))
         (fetchAllPhoneRecordings fuel)
  else Some (r <- await fetchAllMeetingRecordings ;;
             JS.resolve (envelope_of r)).

(** [e?.message || String(e)]. *)
Definition error_text (e : JS.Thrown) : string :=
  JS.or_str (JS.message_of e) (JS.String_of_thrown e).

(** One invocation of [fetchRecordings], from the state it starts in to
    the state it leaves when its promise settles. *)
Definition fetchRecordings (fuel : nat) (st : HookState) : option HookState :=
  let st := setLoading true st in
  let st := setError None st in
  match dispatch fuel with
  | None => None
  | Some (inr d) => Some (setLoading false (setData (Some d) st))
  | Some (inl e) => Some (setLoading false (setError (Some (error_text e)) st))
  end.

End UseRecordings.

(** ** Vocabulary of the statements *)

(** A page supplies a next-page cursor when its token is truthy. *)
Definition has_cursor (p : ApiResponse) : bool :=
  JS.truthy_opt (api_next_page_token p).

(** The cursor in hand after [pages] have arrived, [token] being the one in
    hand before: the token of the last page. *)
Fixpoint next_cursor (token : option string) (pages : list ApiResponse)
  : option string :=
  match pages with
  | [] => token
  | p :: tl => next_cursor (api_next_page_token p) tl
  end.

Definition cursor_after (pages : list ApiResponse) : option string :=
  next_cursor None pages.

(** [r] has the tag [s] and, in every other field, what [u] has. *)
Definition tagged_copy (s : RecordingSource) (u r : Recording) : Prop :=
  source r = Some s
  /\ id r = id u
  /\ caller_number r = caller_number u
  /\ caller_number_type r = caller_number_type u
  /\ callee_number r = callee_number u
  /\ callee_number_type r = callee_number_type u
  /\ date_time r = date_time u
  /\ end_time r = end_time u
  /\ duration r = duration u
  /\ recording_type r = recording_type u
  /\ download_url r = download_url u
  /\ caller_name r = caller_name u
  /\ callee_name r = callee_name u
  /\ owner r = owner u
  /\ site r = site u
  /\ direction r = direction u
  /\ disclaimer_status r = disclaimer_status u
  /\ topic r = topic u
  /\ host_name r = host_name u
  /\ host_email r = host_email u
  /\ meetingId r = meetingId u
  /\ file_size r = file_size u
  /\ recording_files r = recording_files u
  /\ files_count r = files_count u
  /\ files_types r = files_types u
  /\ autoDelete r = autoDelete u
  /\ autoDeleteDate r = autoDeleteDate u.

(** The records a page contributes, tagged. *)
Definition page_records (p : ApiResponse) : list Recording :=
  map (fun r => with_source r phone) (JS.coalesce_def (api_recordings p) []).

Section Walks.

Variables from to : string.
Variable pageSize : JS.number.
Variable phone_net : nat -> Http.Url -> Http.Reply ApiResponse.

(** [answered k token pages]: the requests number [k], [k+1], ... of a
    walk, the first of which carries the cursor [token] and each later one
    the cursor of the page before it, are answered by [pages], in order. *)
Fixpoint answered (k : nat) (token : option string) (pages : list ApiResponse)
  : Prop :=
  match pages with
  | [] => True
  | p :: tl =>
      Http.fetchJson (phone_net k (phone_url from to pageSize token)) = inr p
      /\ answered (S k) (api_next_page_token p) tl
  end.

(** The requests that [answered] speaks of. *)
Fixpoint urls (token : option string) (pages : list ApiResponse)
  : list Http.Url :=
  match pages with
  | [] => []
  | p :: tl =>
      phone_url from to pageSize token :: urls (api_next_page_token p) tl
  end.

(** The pages P1..Pn of a successful walk: each page but the last supplies
    a cursor, and the walk ends at Pn because Pn supplies none or because
    it is page number [MAX_PHONE_PAGES]. *)
Record successful_walk (pages : list ApiResponse) : Prop := {
  walk_nonempty : pages <> [];
  walk_answered : answered 0 None pages;
  walk_chained : Forall (fun p => has_cursor p = true) (removelast pages);
  walk_bounded : List.length pages <= MAX_PHONE_PAGES;
  walk_ends :
    JS.truthy_opt (cursor_after pages) = false
    \/ List.length pages = MAX_PHONE_PAGES
}.

End Walks.

(** A field of the first page. *)
Definition first_page (field : ApiResponse -> option string)
  (pages : list ApiResponse) : option string :=
  match pages with
  | [] => None
  | p :: _ => field p
  end.

(** The last defined value of a list of optional values. *)
Fixpoint last_defined {A : Type} (l : list (option A)) : option A :=
  match l with
  | [] => None
  | x :: tl =>
      match last_defined tl with
      | Some y => Some y
      | None => x
      end
  end.

(** The first non-empty string of an ordered list of optional strings, and
    [d] when there is none: the fallback chains as the design states them. *)
Fixpoint first_nonempty (l : list (option string)) (d : string) : string :=
  match l with
  | [] => d
  | Some s :: tl => if String.eqb s "" then first_nonempty tl d else s
  | None :: tl => first_nonempty tl d
  end.

(** The size a file contributes according to the design: its size field when
    that is a number other than NaN, zero otherwise. *)
Definition numeric_size (f : RecordingFile) : option JS.number :=
  match f_file_size f with
  | JS.VNum JS.NaN => None
  | JS.VNum n => Some n
  | _ => None
  end.




Definition positive (n : JS.number) : bool :=
  match n with
  | JS.Fin z => (0 <? z)%Z
  | JS.PosInf => true
  | _ => false
  end.

Definition nonneg (n : JS.number) : Prop :=
  match n with
  | JS.Fin z => (0 <= z)%Z
  | JS.PosInf => True
  | _ => False
  end.

Definition negative (n : JS.number) : bool :=
  match n with
  | JS.Fin z => (z <? 0)%Z
  | JS.NegInf => true
  | _ => false
  end.

(** A file whose start timestamp parses to the valid time value [t]. *)
Definition valid_start (Date_parse : string -> option Z)
  (f : RecordingFile) (t : Z) : Prop :=
  exists s, f_recording_start f = Some s /\ s <> "" /\ Date_parse s = Some t.

(** ** Sample inputs *)

Module Sample.

(** A record as the phone endpoint lists it. *)
Definition call (i : string) : Recording :=
  {| id := i;
     caller_number := "+15550100";
     caller_number_type := JS.Fin 1;
     callee_number := "+15550101";
     callee_number_type := JS.Fin 1;
     date_time := Some "2025-01-15T10:00:00Z";
     end_time := Some "2025-01-15T10:05:00Z";
     duration := JS.Fin 300;
     recording_type := "Automatic";
     download_url := Some "https://zoom.us/v2/phone/recording/download/x";
     caller_name := Some "Ann";
     callee_name := "Bob";
     owner := {| owner_type := "user"; owner_id := Some "u1";
                 owner_name := "Ann" |};
     site := {| site_id := "s1"; site_name := "Main" |};
     direction := "outbound";
     disclaimer_status := None;
     source := None;
     topic := None;
     host_name := None;
     host_email := None;
     meetingId := None;
     file_size := None;
     recording_files := None;
     files_count := None;
     files_types := None;
     autoDelete := JS.VUndefined;
     autoDeleteDate := JS.VUndefined |}.

Definition page (f t token : option string) (recs : list Recording)
  : ApiResponse :=
  {| api_from := f; api_to := t; api_total_records := None;
     api_next_page_token := token; api_recordings := Some recs |}.

Definition ok_reply {T : Type} (body : T) : Http.Reply T :=
  inr {| Http.ok := true; Http.status := 200; Http.text := "";
         Http.json := inr body |}.

Definition error_reply {T : Type} (code : nat) (body : string)
  : Http.Reply T :=
  inr {| Http.ok := false; Http.status := code; Http.text := body;
         Http.json :=
           inl (JS.ErrorObject "SyntaxError" "Unexpected token") |}.

Definition offline {T : Type} : Http.Reply T :=
  inl (JS.ErrorObject "TypeError" "Failed to fetch").

(** Three pages [a,b], [c], [d,e]; the first two echo different ranges. *)
Definition P1 : ApiResponse :=
  page (Some "2025-01-01") (Some "2025-01-31") (Some "t1")
       [call "a"; call "b"].
Definition P2 : ApiResponse :=
  page (Some "2025-02-01") (Some "2025-02-28") (Some "t2") [call "c"].
Definition P3 : ApiResponse :=
  page None None None [call "d"; call "e"].

Definition three_pages (k : nat) (_ : Http.Url) : Http.Reply ApiResponse :=
  match k with
  | 0 => ok_reply P1
  | 1 => ok_reply P2
  | 2 => ok_reply P3
  | _ => offline
  end.

(** An upstream that never stops supplying cursors. *)
Definition endless_page (k : nat) : ApiResponse :=
  page None None (Some "more") [call "r"].

Definition endless (k : nat) (_ : Http.Url) : Http.Reply ApiResponse :=
  ok_reply (endless_page k).

(** Page 2 of 3 fails. *)
Definition second_fails (k : nat) (_ : Http.Url) : Http.Reply ApiResponse :=
  match k with
  | 0 => ok_reply P1
  | 1 => error_reply 500 "upstream down"
  | _ => ok_reply P3
  end.

(** A phone page whose record carries a [topic]. *)
Definition call_with_topic : Recording :=
  {| id := "a";
     caller_number := "+15550100";
     caller_number_type := JS.Fin 1;
     callee_number := "+15550101";
     callee_number_type := JS.Fin 1;
     date_time := Some "2025-01-15T10:00:00Z";
     end_time := None;
     duration := JS.Fin 300;
     recording_type := "Automatic";
     download_url := None;
     caller_name := Some "Ann";
     callee_name := "Bob";
     owner := {| owner_type := "user"; owner_id := Some "u1";
                 owner_name := "Ann" |};
     site := {| site_id := "s1"; site_name := "Main" |};
     direction := "outbound";
     disclaimer_status := None;
     source := None;
     topic := Some "Weekly sync";
     host_name := None;
     host_email := None;
     meetingId := None;
     file_size := None;
     recording_files := None;
     files_count := None;
     files_types := None;
     autoDelete := JS.VUndefined;
     autoDeleteDate := JS.VUndefined |}.

Definition topic_page (k : nat) (_ : Http.Url) : Http.Reply ApiResponse :=
  ok_reply (page None None None [call_with_topic]).

Definition no_meetings (_ : Http.Url) : Http.Reply MeetingApiResponse :=
  ok_reply {| mapi_from := None; mapi_to := None; mapi_meetings := None |}.

Definition no_demo (_ _ : string) : JS.Promise (list Recording) := inr [].

Definition no_dates (_ : string) : option Z := None.

(** A state that holds the result of an earlier fetch. *)
Definition stale : HookState :=
  {| data := Some (page (Some "2024-12-01") (Some "2024-12-31") None
                        [call "old"]);
     loading := false;
     error := None |}.

(** Meetings. *)
Definition file (start : option string) (size type : JS.value)
  : RecordingFile :=
  {| f_id := Some "file-1";
     f_recording_start := start;
     f_recording_end := None;
     f_download_url := Some "https://example.com/download";
     f_file_size := size;
     f_file_type := type |}.

Definition session (fs : option (list RecordingFile)) : Meeting :=
  {| m_uuid := Some "uuid-1";
     m_id := JS.VNum (JS.Fin 42);
     m_topic := Some "Standup";
     m_start_time := Some "2025-11-05T08:55:00Z";
     m_duration := Some (JS.Fin 45);
     m_host_id := Some "host-1";
     m_recording_files := fs;
     m_hostEmail := None;
     m_host_email := Some "host@example.com";
     m_owner_email := None;
     m_hostName := None;
     m_owner_name := None;
     m_autoDelete := JS.VUndefined;
     m_auto_delete := JS.VUndefined;
     m_autoDeleteDate := JS.VUndefined;
     m_auto_delete_date := JS.VUndefined |}.

(** A [Date] that parses two timestamps and rejects every other string. *)
Definition parse (s : string) : option Z :=
  if String.eqb s "2025-11-05T10:00Z" then Some 1762336800000%Z
  else if String.eqb s "2025-11-05T09:00Z" then Some 1762333200000%Z
  else None.

Definition at_ten : RecordingFile :=
  file (Some "2025-11-05T10:00Z") JS.VUndefined (JS.VStr "MP4").
Definition at_nine : RecordingFile :=
  file (Some "2025-11-05T09:00Z") JS.VUndefined (JS.VStr "MP4").
Definition at_no_time : RecordingFile :=
  file (Some "invalid") JS.VUndefined (JS.VStr "M4A").

Definition timed_files : list RecordingFile :=
  [at_ten; at_nine; at_no_time].

Definition sized (size : JS.value) : RecordingFile :=
  file None size (JS.VStr "MP4").

(** Sizes [100, NaN, "x", 50]. *)
Definition sized_files : list RecordingFile :=
  [sized (JS.VNum (JS.Fin 100)); sized (JS.VNum JS.NaN);
   sized (JS.VStr "x"); sized (JS.VNum (JS.Fin 50))].


(** Sizes [5, -5]. *)
Definition cancelling_files : list RecordingFile :=
  [sized (JS.VNum (JS.Fin 5)); sized (JS.VNum (JS.Fin (-5)))].

(** A session whose only identity field is [owner_email]. *)
Definition owner_only : Meeting :=
  {| m_uuid := Some "uuid-2";
     m_id := JS.VNum (JS.Fin 43);
     m_topic := None;
     m_start_time := Some "2025-11-05T08:55:00Z";
     m_duration := None;
     m_host_id := None;
     m_recording_files := None;
     m_hostEmail := None;
     m_host_email := None;
     m_owner_email := Some "a@x.com";
     m_hostName := None;
     m_owner_name := None;
     m_autoDelete := JS.VUndefined;
     m_auto_delete := JS.VUndefined;
     m_autoDeleteDate := JS.VUndefined;
     m_auto_delete_date := JS.VUndefined |}.

End Sample.

(** ** The backend ([_worker.js]) *)

(** The worker relays requests to the Zoom API.  Its effects are explicit:
    a handler is given the time [now] of its call, the time [now'] at which
    a token response arrives, the replies of the token endpoint and of the
    API, and the token cache it starts with; it returns the requests it
    sent, in order, the settled promise of its response, and the cache it
    leaves.  [btoa], [new URL] and [JSON.parse] are parameters.  Times and
    lifetimes are integers. *)

Module Worker.

Definition ZOOM_API_BASE : string := "https://api.zoom.us/v2".
Definition ZOOM_OAUTH_TOKEN_URL : string := "https://zoom.us/oauth/token".

(** [searchParams.get(k)]: the first value named [k]. *)
Fixpoint get (k : string) (ps : Http.URLSearchParams) : option string :=
  match ps with
  | [] => None
  | (k', v) :: tl => if String.eqb k k' then Some v else get k tl
  end.

(** A request that the worker sends. *)
Record Outbound : Type := mkOutbound {
  out_url : Http.Url;
  out_method : string;
  out_headers : list (string * string)
}.

(** A URL given as one string. *)
Definition url_of_href (h : string) : Http.Url :=
  {| Http.path := h; Http.query := [] |}.

(** The request that the worker receives: [req.method] and the parts of
    [new URL(req.url)] that the handlers read. *)
Record Inbound : Type := mkInbound {
  in_method : string;
  in_pathname : string;
  in_query : Http.URLSearchParams
}.

(** A response of the Zoom API: status, headers (names in lower case),
    whether [body] is a stream rather than null, and the text of the
    body. *)
Record Upstream : Type := mkUpstream {
  up_status : nat;
  up_headers : list (string * string);
  up_has_body : bool;
  up_text : string
}.

(** The JSON body of the token endpoint. *)
Record TokenData : Type := mkTokenData {
  access_token : option string;
  expires_in : option Z
}.

(** The module-level token cache. *)
Record TokenCache : Type := mkTokenCache {
  cachedToken : option string;
  cachedTokenExp : Z
}.

Definition initial_cache : TokenCache :=
  {| cachedToken := None; cachedTokenExp := 0%Z |}.

(** [new URL(target)], as far as the download handler reads it. *)
Record ParsedUrl : Type := mkParsedUrl {
  hostname : string;
  pathname : string;
  href : string
}.

Section Handlers.

(** Parsed JSON values. *)
Variable J : Type.
Variable JSON_parse : string -> option J.
Variable URL_parse : string -> option ParsedUrl.
Variable btoa : string -> string.

(** What a response body is made from. *)
Inductive Body : Type :=
| BodyJson (j : J)                           (* JSON.stringify(JSON.parse(text)) *)
| BodyRaw (text : string)                    (* JSON.stringify({ raw: text }) *)
| BodyError (error : string)                 (* JSON.stringify({ error }) *)
| BodyMeetings (fake : MeetingApiResponse)   (* JSON.stringify(fakeResponse) *)
| BodyIdentity (userId source_label : string)
| BodyStream (content : string)              (* zoomRes.body *)
| BodyText (text : string).

Record Response : Type := mkResponse {
  res_status : nat;
  res_headers : list (string * string);
  res_body : option Body
}.

(** The statuses that admit no body. *)
Definition null_body_status (status : nat) : bool :=
  (status =? 101)%nat || (status =? 204)%nat || (status =? 205)%nat
  || (status =? 304)%nat.

(** The statuses with which a response that has a body can be built. *)
Definition admits_body (status : nat) : bool :=
  negb ((status <? 200)%nat || (599 <? status)%nat)
  && negb (null_body_status status).

(** [new Response(body, { status, headers })]: the constructor throws for a
    status outside 200..599 and for a body with a status that admits
    none. *)
Definition new_Response (body : option Body) (status : nat)
  (headers : list (string * string)) : JS.Promise Response :=
  if (status <? 200)%nat || (599 <? status)%nat
  then JS.reject
         (JS.ErrorObject "RangeError"
            "Responses may only be constructed with status codes in the range 200 to 599, inclusive.")
  else
    match body with
    | Some _ =>
        if null_body_status status
        then JS.reject
               (JS.ErrorObject "TypeError"
                  "Response with null body status (101, 204, 205, or 304) cannot have a body.")
        else JS.resolve {| res_status := status; res_headers := headers;
                           res_body := body |}
    | None => JS.resolve {| res_status := status; res_headers := headers;
                            res_body := None |}
    end.

Record Env : Type := mkEnv {
  ZOOM_CLIENT_ID : string;
  ZOOM_CLIENT_SECRET : string;
  ZOOM_ACCOUNT_ID : string;
  ZOOM_MEETINGS_USER_ID : option string;
  ASSETS : option (Inbound -> JS.Promise Response)
}.

(** What a call leaves behind. *)
Record Run (A : Type) : Type := mkRun {
  sent : list Outbound;
  result : JS.Promise A;
  cache_after : TokenCache
}.
Arguments mkRun {A}.
Arguments sent {A}.
Arguments result {A}.
Arguments cache_after {A}.

(** *** [getZoomAccessToken] *)

Definition token_request (env : Env) : Outbound :=
  let basicAuth := btoa (ZOOM_CLIENT_ID env ++ ":" ++ ZOOM_CLIENT_SECRET env) in
  let params := [] in
  let params := Http.set "grant_type" "account_credentials" params in
  let params := Http.set "account_id" (ZOOM_ACCOUNT_ID env) params in
  {| out_url := {| Http.path := ZOOM_OAUTH_TOKEN_URL; Http.query := params |};
     out_method := "POST";
     out_headers :=
       [("Authorization", ("Basic " ++ basicAuth)%string);
        ("Content-Type", "application/x-www-form-urlencoded")] |}.

(** [(data.expires_in || 3600) * 1000]. *)
Definition lifetime_ms (data : TokenData) : Z :=
  (match expires_in data with
   | Some 0%Z | None => 3600
   | Some n => n
   end * 1000)%Z.

Definition getZoomAccessToken (env : Env) (now now' : Z)
  (token_reply : Outbound -> Http.Reply TokenData) (c : TokenCache)
  : Run (option string) :=
  if JS.truthy_opt (cachedToken c) && (now <? cachedTokenExp c - 30000)%Z
  then {| sent := []; result := JS.resolve (cachedToken c); cache_after := c |}
  else
    let rq := token_request env in
    match token_reply rq with
    | inl e => {| sent := [rq]; result := JS.reject e; cache_after := c |}
    | inr res =>
        if negb (Http.ok res)
        then {| sent := [rq];
                result :=
                  JS.reject
                    (JS.new_Error
                       ("Failed to get Zoom token ("
                          ++ Http.String_of_status (Http.status res) ++ "): "
                          ++ Http.text res));
                cache_after := c |}
        else
          match Http.json res with
          | inl e => {| sent := [rq]; result := JS.reject e; cache_after := c |}
          | inr data =>
              let c' := {| cachedToken := access_token data;
                           cachedTokenExp := (now' + lifetime_ms data)%Z |} in
              {| sent := [rq];
                 result := JS.resolve (cachedToken c');
                 cache_after := c' |}
          end
    end.

(** A token inside a template literal. *)
Definition template (token : option string) : string :=
  match token with
  | Some t => t
  | None => "undefined"
  end.

(** *** [handleGetRecordings] *)

(** The loop that copies the inbound query to the upstream URL. *)
Definition forward_params (inbound : Http.URLSearchParams)
  : Http.URLSearchParams :=
  fold_left (fun acc kv => Http.set (fst kv) (snd kv) acc) inbound [].

Definition recordings_request (req : Inbound) (token : option string)
  : Outbound :=
  {| out_url := {| Http.path := ZOOM_API_BASE ++ "/phone/recordings";
                   Http.query := forward_params (in_query req) |};
     out_method := "GET";
     out_headers := [("Authorization", ("Bearer " ++ template token)%string)] |}.

Definition handleGetRecordings (req : Inbound) (env : Env) (now now' : Z)
  (token_reply : Outbound -> Http.Reply TokenData)
  (api : Outbound -> JS.Promise Upstream) (c : TokenCache) : Run Response :=
  let t := getZoomAccessToken env now now' token_reply c in
  match result t with
  | inl e => {| sent := sent t; result := JS.reject e;
                cache_after := cache_after t |}
  | inr token =>
      let rq := recordings_request req token in
      match api rq with
      | inl e => {| sent := sent t ++ [rq]; result := JS.reject e;
                    cache_after := cache_after t |}
      | inr upstreamRes =>
          let text := up_text upstreamRes in
          let body :=
            match JSON_parse text with
            | Some b => BodyJson b
            | None => BodyRaw text
            end in
          {| sent := sent t ++ [rq];
             result :=
               new_Response (Some body) (up_status upstreamRes)
                 [("Content-Type", "application/json");
                  ("Access-Control-Allow-Origin", "*")];
             cache_after := cache_after t |}
      end
  end.

(** *** [handleGetMeetingRecordings] *)

(** [fakeResponse], with [now] the text of [new Date().toISOString()]; its
    [page_size] and [next_page_token] have no field in the hook's type. *)
Definition fakeResponse (now : string) : MeetingApiResponse :=
  {| mapi_from := Some "2025-11-01";
     mapi_to := Some "2025-11-13";
     mapi_meetings :=
       Some
         [ {| m_uuid := Some "dummy-uuid";
              m_id := JS.VNum (JS.Fin 123456789);
              m_topic := Some "Test Meeting (stub)";
              m_start_time := Some now;
              m_duration := Some (JS.Fin 45);
              m_host_id := Some "host-123";
              m_recording_files :=
                Some
                  [ {| f_id := Some "file-1";
                       f_recording_start := Some now;
                       f_recording_end := Some now;
                       f_download_url := Some "https://example.com/download";
                       f_file_size := JS.VUndefined;
                       f_file_type := JS.VStr "MP4" |} ];
              m_hostEmail := None;
              m_host_email := Some "host@example.com";
              m_owner_email := None;
              m_hostName := None;
              m_owner_name := None;
              m_autoDelete := JS.VUndefined;
              m_auto_delete := JS.VUndefined;
              m_autoDeleteDate := JS.VUndefined;
              m_auto_delete_date := JS.VUndefined |} ] |}.

Definition handleGetMeetingRecordings (now : Z) : JS.Promise Response :=
  new_Response (Some (BodyMeetings (fakeResponse (JSDate.toISOString now))))
    200 [("Content-Type", "application/json")].

(** *** [handleGetMeetingIdentity] *)

Definition handleGetMeetingIdentity (env : Env) : JS.Promise Response :=
  let userId := JS.or_str (ZOOM_MEETINGS_USER_ID env) "me" in
  new_Response
    (Some (BodyIdentity userId
             (if JS.truthy_opt (ZOOM_MEETINGS_USER_ID env)
              then "ZOOM_MEETINGS_USER_ID" else "default_me")))
    200 [("Content-Type", "application/json")].

(** *** [handleDownloadRecording] *)

(** [json(status, obj)] for the objects [{ error }]. *)
Definition json (status : nat) (error : string) : JS.Promise Response :=
  new_Response (Some (BodyError error)) status
    [("Content-Type", "application/json")].

(** The guard on the target of a download. *)
Definition blocked (zoomUrl : ParsedUrl) : bool :=
  negb (String.eqb (hostname zoomUrl) "zoom.us")
  || negb (String.prefix "/v2/phone/recording/download" (pathname zoomUrl)).

Definition download_request (zoomUrl : ParsedUrl) (token : option string)
  : Outbound :=
  {| out_url := url_of_href (href zoomUrl);
     out_method := "GET";
     out_headers := [("Authorization", ("Bearer " ++ template token)%string)] |}.

(** The two headers that are copied when the API sends them. *)
Definition download_headers (zoomRes : Upstream) : list (string * string) :=
  let headers := [] in
  let headers :=
    if JS.truthy_opt (get "content-type" (up_headers zoomRes))
    then Http.set "Content-Type"
           (JS.coalesce_def (get "content-type" (up_headers zoomRes)) "")
           headers
    else headers in
  if JS.truthy_opt (get "content-disposition" (up_headers zoomRes))
  then Http.set "Content-Disposition"
         (JS.coalesce_def (get "content-disposition" (up_headers zoomRes)) "")
         headers
  else headers.

(** A handler that returns without a request. *)
Definition done (c : TokenCache) (r : JS.Promise Response) : Run Response :=
  {| sent := []; result := r; cache_after := c |}.

Definition handleDownloadRecording (req : Inbound) (env : Env) (now now' : Z)
  (token_reply : Outbound -> Http.Reply TokenData)
  (api : Outbound -> JS.Promise Upstream) (c : TokenCache) : Run Response :=
  let target := get "url" (in_query req) in
  if negb (JS.truthy_opt target)
  then done c (json 400 "Missing 'url' query parameter")
  else
    match URL_parse (JS.coalesce_def target "") with
    | None => done c (json 400 "Invalid URL")
    | Some zoomUrl =>
        if blocked zoomUrl
        then done c (json 400 "Blocked URL")
        else
          let t := getZoomAccessToken env now now' token_reply c in
          match result t with
          | inl e => {| sent := sent t; result := JS.reject e;
                        cache_after := cache_after t |}
          | inr token =>
              let rq := download_request zoomUrl token in
              match api rq with
              | inl e => {| sent := sent t ++ [rq]; result := JS.reject e;
                            cache_after := cache_after t |}
              | inr zoomRes =>
                  {| sent := sent t ++ [rq];
                     result :=
                       new_Response
                         (if up_has_body zoomRes
                          then Some (BodyStream (up_text zoomRes))
                          else None)
                         (up_status zoomRes) (download_headers zoomRes);
                     cache_after := cache_after t |}
              end
          end
    end.

(** *** The router *)

Definition is_GET_at (req : Inbound) (p : string) : bool :=
  String.eqb (in_pathname req) p && String.eqb (in_method req) "GET".

Definition fetch (req : Inbound) (env : Env) (now now' : Z)
  (token_reply : Outbound -> Http.Reply TokenData)
  (api : Outbound -> JS.Promise Upstream) (c : TokenCache) : Run Response :=
  if is_GET_at req "/api/phone/recordings"
  then handleGetRecordings req env now now' token_reply api c
  else if is_GET_at req "/api/phone/recordings/download"
  then handleDownloadRecording req env now now' token_reply api c
  else if is_GET_at req "/api/meeting/recordings"
  then done c (handleGetMeetingRecordings now)
  else if is_GET_at req "/api/meeting/identity"
  then done c (handleGetMeetingIdentity env)
  else
    match ASSETS env with
    | Some assets => {| sent := []; result := assets req; cache_after := c |}
    | None =>
        done c (new_Response (Some (BodyText "Recording Explorer backend"))
                  200 [])
    end.

End Handlers.

Arguments mkRun {A}.
Arguments sent {A}.
Arguments result {A}.
Arguments cache_after {A}.
Arguments res_status {J}.
Arguments res_headers {J}.
Arguments res_body {J}.
Arguments ASSETS {J}.
Arguments done {J}.

(** The cache answers when it holds a non-empty token that is more than
    30 seconds from its expiry. *)
Definition cache_hit (c : TokenCache) (now : Z) : bool :=
  JS.truthy_opt (cachedToken c) && (now <? cachedTokenExp c - 30000)%Z.

End Worker.

(** The last value named [k] of a query. *)
Definition last_value (k : string) (ps : Http.URLSearchParams)
  : option string :=
  Worker.get k (rev ps).

(** The names of a query, in order. *)
Definition keys (ps : Http.URLSearchParams) : list string := map fst ps.

(** [a <= b] on numbers, false when either is NaN. *)
Definition number_le (a b : JS.number) : bool :=
  match a, b with
  | JS.NaN, _ | _, JS.NaN => false
  | JS.NegInf, _ | _, JS.PosInf => true
  | JS.Fin x, JS.Fin y => (x <=? y)%Z
  | _, _ => false
  end.

(** The file types of a list of files that are non-empty strings. *)
Definition type_names (fs : list RecordingFile) : list string :=
  flat_map (fun f => match f_file_type f with
                     | JS.VStr s => if String.eqb s "" then [] else [s]
                     | _ => []
                     end) fs.

(** A list of strings without the later repetitions of each string. *)
Fixpoint first_occurrences (l : list string) : list string :=
  match l with
  | [] => []
  | x :: tl =>
      x :: filter (fun y => negb (String.eqb y x)) (first_occurrences tl)
  end.

(** Sample inputs for the backend. *)
Module WorkerSample.

Definition env : Worker.Env unit :=
  {| Worker.ZOOM_CLIENT_ID := "client";
     Worker.ZOOM_CLIENT_SECRET := "secret";
     Worker.ZOOM_ACCOUNT_ID := "account";
     Worker.ZOOM_MEETINGS_USER_ID := None;
     Worker.ASSETS := None |}.

Definition no_json (_ : string) : option unit := None.

Definition btoa (s : string) : string := "b64(" ++ s ++ ")".

(** A URL parser that knows three addresses. *)
Definition parse_url (s : string) : option Worker.ParsedUrl :=
  if String.eqb s "https://zoom.us/v2/phone/recording/download/abc"
  then Some {| Worker.hostname := "zoom.us";
               Worker.pathname := "/v2/phone/recording/download/abc";
               Worker.href := s |}
  else if String.eqb s "https://evil.example/v2/phone/recording/download/abc"
  then Some {| Worker.hostname := "evil.example";
               Worker.pathname := "/v2/phone/recording/download/abc";
               Worker.href := s |}
  else None.

Definition fresh_token (_ : Worker.Outbound) : Http.Reply Worker.TokenData :=
  Sample.ok_reply {| Worker.access_token := Some "tok";
                     Worker.expires_in := Some 3600%Z |}.

Definition token_denied (_ : Worker.Outbound) : Http.Reply Worker.TokenData :=
  Sample.error_reply 401 "bad credentials".

Definition api_unauthorized (_ : Worker.Outbound)
  : JS.Promise Worker.Upstream :=
  inr {| Worker.up_status := 401; Worker.up_headers := [];
         Worker.up_has_body := true; Worker.up_text := "nope" |}.

Definition api_file (_ : Worker.Outbound) : JS.Promise Worker.Upstream :=
  inr {| Worker.up_status := 200;
         Worker.up_headers :=
           [("content-type", "audio/mpeg"); ("set-cookie", "a=b")];
         Worker.up_has_body := true;
         Worker.up_text := "bytes" |}.

Definition warm : Worker.TokenCache :=
  {| Worker.cachedToken := Some "tok"; Worker.cachedTokenExp := 5000000%Z |}.

Definition download_of (target : string) : Worker.Inbound :=
  {| Worker.in_method := "GET";
     Worker.in_pathname := "/api/phone/recordings/download";
     Worker.in_query := [("url", target)] |}.

Definition post_recordings : Worker.Inbound :=
  {| Worker.in_method := "POST";
     Worker.in_pathname := "/api/phone/recordings";
     Worker.in_query := [] |}.

End WorkerSample.

(* ===================================================================== *)
(** * Part II: properties                                                 *)
(* ===================================================================== *)

Example toISOString_epoch :
  JSDate.toISOString 0 = "1970-01-01T00:00:00.000Z".
Proof. reflexivity. Qed.

Example toISOString_2025 :
  JSDate.toISOString 1762333200000 = "2025-11-05T09:00:00.000Z".
Proof. reflexivity. Qed.

Example toISOString_leap :
  JSDate.toISOString 951782400123 = "2000-02-29T00:00:00.123Z".
Proof. reflexivity. Qed.

Example toISOString_before_epoch :
  JSDate.toISOString (-1) = "1969-12-31T23:59:59.999Z".
Proof. reflexivity. Qed.

(** ** Small facts about the JavaScript operators *)

Lemma coalesce_None_r {A : Type} (a : option A) : JS.coalesce a None = a.
Proof. destruct a; reflexivity. Qed.

Lemma truthy_string_nonempty (s : string) :
  JS.truthy_string s = true <-> s <> "".
Proof.
  destruct s; simpl; split; intro H;
    try reflexivity; try discriminate; congruence.
Qed.

Lemma truthy_string_app_r (a b : string) :
  JS.truthy_string b = true -> JS.truthy_string (a ++ b) = true.
Proof. destruct a; simpl; auto. Qed.

Lemma or_str_truthy (a : option string) (d : string) :
  JS.truthy_string d = true -> JS.truthy_string (JS.or_str a d) = true.
Proof.
  intros Hd. destruct a as [s|]; simpl; auto.
  destruct (JS.truthy_string s) eqn:E; auto.
Qed.

(** ** [fetchJson] *)

(** [fetchJson] rejects exactly on a transport failure, on a response that
    is not [ok], and when reading the body of an [ok] response fails. *)
Lemma fetchJson_rejects {T : Type} (reply : Http.Reply T) (e : JS.Thrown) :
  Http.fetchJson reply = inl e <->
  reply = inl e
  \/ (exists res, reply = inr res /\ Http.ok res = false /\
        e = JS.new_Error ("HTTP " ++ Http.String_of_status (Http.status res)
                            ++ ": " ++ Http.text res))
  \/ (exists res, reply = inr res /\ Http.ok res = true /\ Http.json res = inl e).
Proof.
  unfold Http.fetchJson, JS.await, JS.reject.
  destruct reply as [e0 | res]; simpl.
  - split.
    + intros H; left; congruence.
    + intros [H | [(res & H & _) | (res & H & _)]]; congruence.
  - destruct (Http.ok res) eqn:Hok; simpl; split.
    + intros H. right. right. exists res. auto.
    + intros [H | [(r & H & Hf & _) | (r & H & _ & Hj)]]; try congruence.
    + intros H. right. left. exists res. repeat split; congruence.
    + intros [H | [(r & H & _ & He) | (r & H & Ht & _)]]; try congruence.
Qed.

(** ** The paginator *)

Section PhoneWalk.

Variables from to : string.
Variable pageSize : JS.number.
Variable phone_net : nat -> Http.Url -> Http.Reply ApiResponse.

Local Arguments Nat.sub : simpl nomatch.
Local Arguments Nat.max : simpl nomatch.
Local Arguments Nat.ltb : simpl never.

Local Abbreviation step := (phone_step from to).
Local Abbreviation loop := (phone_loop from to pageSize phone_net).
Local Abbreviation run pages st := (fold_left (phone_step from to) pages st).

Lemma run_loops pages : forall st,
  loops (run pages st) = loops st + List.length pages.
Proof.
  induction pages as [|p tl IH]; intros st; simpl.
  - lia.
  - rewrite IH. simpl. lia.
Qed.

Lemma run_nextToken pages : forall st,
  nextToken (run pages st) = next_cursor (nextToken st) pages.
Proof.
  induction pages as [|p tl IH]; intros st; simpl.
  - reflexivity.
  - rewrite IH. simpl. now rewrite coalesce_None_r.
Qed.

Lemma run_allRecs pages : forall st,
  allRecs (run pages st) = allRecs st ++ flat_map page_records pages.
Proof.
  induction pages as [|p tl IH]; intros st; simpl.
  - now rewrite app_nil_r.
  - rewrite IH. simpl. now rewrite <- app_assoc.
Qed.

(** [apiFrom] is settled by the first page and kept from then on. *)
Lemma step_apiFrom_kept st p x :
  apiFrom st = Some x -> apiFrom (step st p) = Some x.
Proof. intros H. simpl. now rewrite H. Qed.

Lemma run_apiFrom_kept pages : forall st x,
  apiFrom st = Some x -> apiFrom (run pages st) = Some x.
Proof.
  induction pages as [|p tl IH]; intros st x H; simpl.
  - exact H.
  - apply IH. now apply step_apiFrom_kept.
Qed.

Lemma run_apiFrom p tl st :
  apiFrom st = None ->
  apiFrom (run (p :: tl) st) = Some (JS.coalesce_def (api_from p) from).
Proof.
  intros H. simpl. apply run_apiFrom_kept. simpl. now rewrite H.
Qed.

(** [apiTo] follows the last page that carries a [to]. *)
Lemma run_apiTo pages : forall st,
  JS.coalesce_def (apiTo (run pages st)) to =
  JS.coalesce_def
    (JS.coalesce (last_defined (map api_to pages)) (apiTo st)) to.
Proof.
  induction pages as [|p tl IH]; intros st; simpl.
  - reflexivity.
  - rewrite IH. simpl.
    destruct (last_defined (map api_to tl)) as [y|]; simpl; [reflexivity|].
    destruct (api_to p); simpl; [reflexivity|].
    destruct (apiTo st); reflexivity.
Qed.

(** More fuel does not change a run that ended. *)
Lemma loop_fuel_mono fuel : forall st w,
  loop fuel st = Some w -> forall fuel', fuel <= fuel' -> loop fuel' st = Some w.
Proof.
  induction fuel as [|fuel IH]; intros st w H fuel' Hle; [discriminate|].
  destruct fuel' as [|fuel']; [lia|].
  simpl in *.
  destruct (Http.fetchJson _) as [e|apiPage]; [exact H|].
  destruct (phone_continue _); [|exact H].
  destruct (loop fuel (step st apiPage)) as [w'|] eqn:E; [|discriminate].
  rewrite (IH _ _ E fuel') by lia. exact H.
Qed.

(** The loop ends, whatever the network answers, within the iterations
    that [loops < MAX_PHONE_PAGES] leaves, and issues one request per
    iteration. *)
Lemma loop_terminates fuel : forall st,
  MAX_PHONE_PAGES - loops st <= fuel -> 1 <= fuel ->
  exists w, loop fuel st = Some w
            /\ 1 <= List.length (requests w)
            /\ List.length (requests w) <= Nat.max 1 (MAX_PHONE_PAGES - loops st).
Proof.
  induction fuel as [|fuel IH]; intros st Hfuel Hpos; [lia|].
  simpl.
  destruct (Http.fetchJson _) as [e|apiPage].
  - eexists; split; [reflexivity|]. simpl. lia.
  - destruct (phone_continue _) eqn:Hc.
    + unfold phone_continue in Hc. apply andb_true_iff in Hc.
      destruct Hc as [_ Hlt]. apply Nat.ltb_lt in Hlt. simpl in Hlt.
      destruct (IH (phone_step from to st apiPage)) as (w & Hw & Hlo & Hhi).
      * simpl. lia.
      * lia.
      * rewrite Hw. simpl.
        eexists; split; [reflexivity|]. simpl. simpl in Hhi. lia.
    + eexists; split; [reflexivity|]. simpl. lia.
Qed.

(** A walk over pages that all supply a cursor, short of the cap, is
    followed by whatever the loop does from the state they leave. *)
Lemma loop_through pages : forall st fuel,
  answered from to pageSize phone_net (loops st) (nextToken st) pages ->
  Forall (fun p => has_cursor p = true) pages ->
  loops st + List.length pages < MAX_PHONE_PAGES ->
  loop (List.length pages + fuel) st =
  option_map
    (fun w => {| requests := urls from to pageSize (nextToken st) pages
                               ++ requests w;
                 settled := settled w |})
    (loop fuel (run pages st)).
Proof.
  induction pages as [|p tl IH]; intros st fuel Hans Hcur Hlen.
  - simpl. destruct (loop fuel st) as [[rs s]|]; reflexivity.
  - destruct Hans as [Hp Htl].
    inversion Hcur as [|? ? Hcp Hctl]; subst.
    simpl in Hlen. simpl. rewrite Hp.
    assert (Hc : phone_continue (phone_step from to st p) = true).
    { unfold phone_continue. simpl. rewrite coalesce_None_r.
      unfold has_cursor in Hcp. rewrite Hcp. simpl.
      apply Nat.ltb_lt. lia. }
    rewrite Hc.
    rewrite IH.
    + simpl. rewrite coalesce_None_r.
      destruct (loop fuel _) as [[rs s]|]; reflexivity.
    + simpl. rewrite coalesce_None_r.
      replace (loops st + 1) with (S (loops st)) by lia. exact Htl.
    + exact Hctl.
    + simpl. lia.
Qed.

(** A walk over pages that end it. *)
Lemma loop_resolves pages : forall st fuel,
  pages <> [] ->
  answered from to pageSize phone_net (loops st) (nextToken st) pages ->
  Forall (fun p => has_cursor p = true) (removelast pages) ->
  loops st + List.length pages <= MAX_PHONE_PAGES ->
  JS.truthy_opt (next_cursor (nextToken st) pages) = false
    \/ loops st + List.length pages = MAX_PHONE_PAGES ->
  List.length pages <= fuel ->
  loop fuel st =
  Some {| requests := urls from to pageSize (nextToken st) pages;
          settled := JS.resolve (phone_return from to (run pages st)) |}.
Proof.
  induction pages as [|p tl IH]; intros st fuel Hne Hans Hch Hlen Hend Hfuel;
    [contradiction|].
  destruct Hans as [Hp Htl].
  destruct fuel as [|fuel]; [simpl in Hfuel; lia|].
  simpl. rewrite Hp.
  destruct tl as [|p' tl'].
  - assert (Hc : phone_continue (step st p) = false).
    { unfold phone_continue. simpl. rewrite coalesce_None_r.
      simpl in Hend, Hlen. destruct Hend as [Hend | Hend].
      - now rewrite Hend.
      - apply andb_false_iff. right. apply Nat.ltb_ge. lia. }
    rewrite Hc. reflexivity.
  - assert (Hc : phone_continue (step st p) = true).
    { unfold phone_continue. simpl. rewrite coalesce_None_r.
      inversion Hch as [|? ? Hcp _]; subst.
      unfold has_cursor in Hcp. rewrite Hcp. simpl in Hlen |- *.
      apply Nat.ltb_lt. lia. }
    rewrite Hc.
    rewrite (IH (step st p) fuel).
    + simpl. now rewrite coalesce_None_r.
    + discriminate.
    + simpl. rewrite coalesce_None_r.
      replace (loops st + 1) with (S (loops st)) by lia. exact Htl.
    + now inversion Hch.
    + simpl in Hlen |- *. lia.
    + simpl in Hend, Hlen |- *.
      destruct Hend as [Hend | Hend]; [left; exact Hend | right; lia].
    + simpl in Hfuel |- *. lia.
Qed.

(** A walk whose request after [pages] fails. *)
Lemma loop_rejects pages : forall st fuel e,
  answered from to pageSize phone_net (loops st) (nextToken st) pages ->
  Forall (fun p => has_cursor p = true) pages ->
  loops st + List.length pages < MAX_PHONE_PAGES ->
  Http.fetchJson
    (phone_net (loops st + List.length pages)
       (phone_url from to pageSize (next_cursor (nextToken st) pages)))
    = inl e ->
  List.length pages < fuel ->
  loop fuel st =
  Some {| requests :=
            urls from to pageSize (nextToken st) pages
              ++ [phone_url from to pageSize (next_cursor (nextToken st) pages)];
          settled := JS.reject e |}.
Proof.
  intros st fuel e Hans Hcur Hlen Hfail Hfuel.
  replace fuel with (List.length pages + S (fuel - S (List.length pages)))
    by lia.
  rewrite loop_through by assumption.
  simpl. rewrite run_loops, run_nextToken, Hfail. reflexivity.
Qed.

(** Every run of the loop that ended is one of the two above. *)
Lemma loop_inversion fuel : forall st w,
  loop fuel st = Some w ->
  loops st < MAX_PHONE_PAGES ->
  (forall r, settled w = inr r ->
     exists pages,
       pages <> []
       /\ answered from to pageSize phone_net (loops st) (nextToken st) pages
       /\ Forall (fun p => has_cursor p = true) (removelast pages)
       /\ loops st + List.length pages <= MAX_PHONE_PAGES
       /\ (JS.truthy_opt (next_cursor (nextToken st) pages) = false
           \/ loops st + List.length pages = MAX_PHONE_PAGES))
  /\ (forall e, settled w = inl e ->
       exists pages,
         answered from to pageSize phone_net (loops st) (nextToken st) pages
         /\ Forall (fun p => has_cursor p = true) pages
         /\ loops st + List.length pages < MAX_PHONE_PAGES
         /\ Http.fetchJson
              (phone_net (loops st + List.length pages)
                 (phone_url from to pageSize
                    (next_cursor (nextToken st) pages)))
            = inl e).
Proof.
  induction fuel as [|fuel IH]; intros st w H Hlt; [discriminate|].
  simpl in H.
  destruct (Http.fetchJson _) as [e0|p] eqn:Hp.
  - injection H as <-. simpl. split; [intros r Hr; discriminate|].
    intros e He. injection He as <-.
    exists []. simpl. rewrite Nat.add_0_r. repeat split; auto.
  - destruct (phone_continue (step st p)) eqn:Hc.
    + destruct (loop fuel (step st p)) as [w'|] eqn:Hw'; [|discriminate].
      injection H as <-. simpl.
      unfold phone_continue in Hc. apply andb_true_iff in Hc.
      destruct Hc as [Htok Hlt']. apply Nat.ltb_lt in Hlt'.
      simpl in Htok, Hlt'. rewrite coalesce_None_r in Htok.
      destruct (IH _ _ Hw' Hlt') as [IHr IHe]. simpl in IHr, IHe.
      rewrite coalesce_None_r in IHr, IHe.
      replace (loops st + 1) with (S (loops st)) in IHr, IHe by lia.
      split.
      * intros r Hr. destruct (IHr r Hr) as (pages & Hne & Ha & Hch & Hl & He).
        exists (p :: pages). repeat split.
        -- discriminate.
        -- exact Hp.
        -- exact Ha.
        -- destruct pages as [|q tl]; [contradiction|].
           change (removelast (p :: q :: tl)) with (p :: removelast (q :: tl)).
           constructor; assumption.
        -- simpl. lia.
        -- simpl. destruct He as [He | He]; [left; exact He | right; lia].
      * intros e He. destruct (IHe e He) as (pages & Ha & Hch & Hl & Hf).
        exists (p :: pages). repeat split.
        -- exact Hp.
        -- exact Ha.
        -- constructor; assumption.
        -- simpl. lia.
        -- simpl. replace (loops st + S (List.length pages))
             with (S (loops st) + List.length pages) by lia. exact Hf.
    + injection H as <-. simpl. split; [|intros e He; discriminate].
      intros r _. exists [p]. simpl.
      unfold phone_continue in Hc. simpl in Hc.
      rewrite coalesce_None_r in Hc. apply andb_false_iff in Hc.
      repeat split; auto.
      * discriminate.
      * lia.
      * destruct Hc as [Hc | Hc]; [left; exact Hc|].
        right. apply Nat.ltb_ge in Hc. lia.
Qed.

End PhoneWalk.

Lemma urls_length from to pageSize pages : forall token,
  List.length (urls from to pageSize token pages) = List.length pages.
Proof.
  induction pages as [|p tl IH]; intros token; simpl; [reflexivity|].
  now rewrite IH.
Qed.

Lemma page_records_tagged pages :
  Forall (fun r => source r = Some phone) (flat_map page_records pages).
Proof.
  apply Forall_forall. intros r Hin.
  apply in_flat_map in Hin. destruct Hin as (p & _ & Hin).
  unfold page_records in Hin. apply in_map_iff in Hin.
  destruct Hin as (u & <- & _). reflexivity.
Qed.

(** What the paginator returns for the pages of a successful walk. *)
Lemma walk_result from to pageSize phone_net pages fuel :
  successful_walk from to pageSize phone_net pages ->
  MAX_PHONE_PAGES <= fuel ->
  fetchAllPhoneRecordings from to pageSize phone_net fuel =
  Some {| requests := urls from to pageSize None pages;
          settled :=
            JS.resolve
              {| fetched_from := JS.coalesce_def (first_page api_from pages) from;
                 fetched_to :=
                   JS.coalesce_def (last_defined (map api_to pages)) to;
                 fetched_recordings := flat_map page_records pages |} |}.
Proof.
  intros [Hne Hans Hch Hlen Hend] Hfuel.
  unfold fetchAllPhoneRecordings.
  rewrite (loop_resolves from to pageSize phone_net pages phone_init fuel);
    try assumption; simpl; try lia.
  unfold phone_return.
  rewrite run_allRecs, run_apiTo. simpl.
  destruct pages as [|p tl]; [contradiction|].
  rewrite run_apiFrom by reflexivity. simpl.
  destruct (last_defined (map api_to tl)); simpl; try reflexivity.
  destruct (api_to p); reflexivity.
Qed.

(** Every fulfilled run of the paginator is a successful walk over some
    pages, and every rejected run failed on the request after some pages. *)
Lemma fulfilled_walk from to pageSize phone_net fuel w r :
  fetchAllPhoneRecordings from to pageSize phone_net fuel = Some w ->
  settled w = inr r ->
  exists pages, successful_walk from to pageSize phone_net pages.
Proof.
  intros Hw Hr.
  destruct (loop_inversion from to pageSize phone_net fuel phone_init w Hw)
    as [Hres _].
  - simpl. unfold MAX_PHONE_PAGES. lia.
  - destruct (Hres r Hr) as (pages & Hne & Ha & Hch & Hl & He).
    exists pages. simpl in *. split; auto.
Qed.

Lemma rejected_walk from to pageSize phone_net fuel w e :
  fetchAllPhoneRecordings from to pageSize phone_net fuel = Some w ->
  settled w = inl e ->
  exists pages,
    answered from to pageSize phone_net 0 None pages
    /\ Forall (fun p => has_cursor p = true) pages
    /\ List.length pages < MAX_PHONE_PAGES
    /\ Http.fetchJson
         (phone_net (List.length pages)
            (phone_url from to pageSize (cursor_after pages))) = inl e.
Proof.
  intros Hw He.
  destruct (loop_inversion from to pageSize phone_net fuel phone_init w Hw)
    as [_ Hrej].
  - simpl. unfold MAX_PHONE_PAGES. lia.
  - destruct (Hrej e He) as (pages & Ha & Hch & Hl & Hf).
    exists pages. simpl in *. auto.
Qed.

(** The paginator always ends, with at least one and at most
    [MAX_PHONE_PAGES] requests, whatever the upstream answers. *)
Lemma fetchAllPhoneRecordings_terminates from to pageSize phone_net fuel :
  MAX_PHONE_PAGES <= fuel ->
  exists w,
    fetchAllPhoneRecordings from to pageSize phone_net fuel = Some w
    /\ 1 <= List.length (requests w) <= MAX_PHONE_PAGES.
Proof.
  intros Hfuel.
  destruct (loop_terminates from to pageSize phone_net fuel phone_init)
    as (w & Hw & Hlo & Hhi).
  - unfold MAX_PHONE_PAGES in *. simpl. lia.
  - unfold MAX_PHONE_PAGES in Hfuel. lia.
  - exists w. unfold MAX_PHONE_PAGES in *. simpl in Hhi.
    repeat split; auto; lia.
Qed.

Lemma answered_by_sequence from to pageSize phone_net
  (page : nat -> ApiResponse) :
  (forall k url, Http.fetchJson (phone_net k url) = inr (page k)) ->
  forall n k token,
    answered from to pageSize phone_net k token (map page (seq k n)).
Proof.
  intros H n. induction n as [|n IH]; intros k token; simpl; auto.
Qed.

Lemma Forall_removelast {A : Type} (P : A -> Prop) (l : list A) :
  Forall P l -> Forall P (removelast l).
Proof.
  induction 1 as [|x l Hx Hl IH]; simpl; [constructor|].
  destruct l; [constructor|]. constructor; assumption.
Qed.

(** Settles [successful_walk] on concrete pages by computation. *)
Ltac walk_by_computation :=
  constructor;
  [ discriminate
  | simpl; repeat split; reflexivity
  | simpl; repeat constructor
  | unfold MAX_PHONE_PAGES; simpl; lia
  | first [ left; reflexivity | right; reflexivity ] ].

(** ** C1: the echoed range *)

(** C1 (as stated, refuted).  Over the three sample pages the first page
    answers with [to = "2025-01-31"], yet the paginator returns the [to] of
    the second page, "2025-02-28": a later page changed it. *)
Lemma echoed_to_follows_later_pages :
  successful_walk "2025-01-01" "2025-03-31" (JS.Fin 100) Sample.three_pages
    [Sample.P1; Sample.P2; Sample.P3]
  /\ JS.coalesce_def
       (first_page api_to [Sample.P1; Sample.P2; Sample.P3]) "2025-03-31"
     = "2025-01-31"
  /\ exists w r,
       fetchAllPhoneRecordings "2025-01-01" "2025-03-31" (JS.Fin 100)
         Sample.three_pages MAX_PHONE_PAGES = Some w
       /\ settled w = inr r
       /\ fetched_from r = "2025-01-01"
       /\ fetched_to r = "2025-02-28"
       /\ fetched_to r <> "2025-01-31".
Proof.
  split; [|split].
  - walk_by_computation.
  - reflexivity.
  - eexists. eexists. split; [vm_compute; reflexivity|].
    simpl. repeat split; try reflexivity. discriminate.
Qed.

(** C1 (amended).  Over the pages P1..Pn of a successful walk, the returned
    [from] is that of P1, or the request's when P1 has none, whatever the
    later pages say; the returned [to] is that of the last page that carries
    one, or the request's when no page does. *)
Theorem echoed_range from to pageSize phone_net pages fuel :
  successful_walk from to pageSize phone_net pages ->
  MAX_PHONE_PAGES <= fuel ->
  exists w r,
    fetchAllPhoneRecordings from to pageSize phone_net fuel = Some w
    /\ settled w = inr r
    /\ fetched_from r = JS.coalesce_def (first_page api_from pages) from
    /\ fetched_to r = JS.coalesce_def (last_defined (map api_to pages)) to.
Proof.
  intros Hwalk Hfuel.
  rewrite (walk_result _ _ _ _ pages fuel Hwalk Hfuel).
  eexists. eexists. split; [reflexivity|]. simpl. auto.
Qed.

Lemma echoed_range_witness :
  exists w r,
    fetchAllPhoneRecordings "2025-01-01" "2025-03-31" (JS.Fin 100)
      Sample.three_pages 20 = Some w
    /\ settled w = inr r
    /\ fetched_from r =
         JS.coalesce_def
           (first_page api_from [Sample.P1; Sample.P2; Sample.P3]) "2025-01-01"
    /\ fetched_to r =
         JS.coalesce_def
           (last_defined (map api_to [Sample.P1; Sample.P2; Sample.P3]))
           "2025-03-31".
Proof.
  apply (echoed_range "2025-01-01" "2025-03-31" (JS.Fin 100)
           Sample.three_pages [Sample.P1; Sample.P2; Sample.P3] 20).
  - walk_by_computation.
  - unfold MAX_PHONE_PAGES. lia.
Defined.

(** ** C2: the cap on the number of pages *)

(** C2.  When the upstream answers every request with a page that supplies a
    next-page cursor ([page k] being its k-th answer), the paginator issues
    exactly [MAX_PHONE_PAGES] = 20 requests, hence at most 20, and then
    returns: its promise is fulfilled with the records of the first 20
    pages. *)
Theorem pagination_is_capped from to pageSize phone_net
  (page : nat -> ApiResponse) fuel :
  (forall k url, Http.fetchJson (phone_net k url) = inr (page k)) ->
  (forall k, has_cursor (page k) = true) ->
  MAX_PHONE_PAGES <= fuel ->
  exists w r,
    fetchAllPhoneRecordings from to pageSize phone_net fuel = Some w
    /\ List.length (requests w) = MAX_PHONE_PAGES
    /\ List.length (requests w) <= 20
    /\ settled w = inr r
    /\ fetched_recordings r =
         flat_map page_records (map page (seq 0 MAX_PHONE_PAGES)).
Proof.
  intros Hnet Hcur Hfuel.
  set (pages := map page (seq 0 MAX_PHONE_PAGES)).
  assert (Hlen : List.length pages = MAX_PHONE_PAGES).
  { unfold pages. now rewrite length_map, length_seq. }
  assert (Hwalk : successful_walk from to pageSize phone_net pages).
  { constructor.
    - intros E. rewrite E in Hlen. discriminate.
    - apply answered_by_sequence, Hnet.
    - apply Forall_removelast, Forall_forall.
      intros p Hin. apply in_map_iff in Hin. destruct Hin as (k & <- & _).
      apply Hcur.
    - lia.
    - right. exact Hlen. }
  rewrite (walk_result _ _ _ _ pages fuel Hwalk Hfuel).
  eexists. eexists. split; [reflexivity|].
  cbn [requests settled fetched_recordings].
  rewrite urls_length, Hlen. repeat split. unfold MAX_PHONE_PAGES. lia.
Qed.

Lemma pagination_is_capped_witness :
  exists w r,
    fetchAllPhoneRecordings "2025-01-01" "2025-12-31" (JS.Fin 300)
      Sample.endless 25 = Some w
    /\ List.length (requests w) = MAX_PHONE_PAGES
    /\ List.length (requests w) <= 20
    /\ settled w = inr r
    /\ fetched_recordings r =
         flat_map page_records
           (map Sample.endless_page (seq 0 MAX_PHONE_PAGES)).
Proof.
  apply (pagination_is_capped "2025-01-01" "2025-12-31" (JS.Fin 300)
           Sample.endless Sample.endless_page 25).
  - intros k url. reflexivity.
  - intros k. reflexivity.
  - unfold MAX_PHONE_PAGES. lia.
Defined.

(** ** C3: accumulation order *)

Lemma with_source_copies (l : list Recording) :
  Forall2 (tagged_copy phone) l (map (fun u => with_source u phone) l).
Proof.
  induction l as [|u tl IH]; simpl; constructor; [|exact IH].
  unfold tagged_copy. simpl. repeat split.
Qed.

(** C3.  Over the pages P1..Pn of a successful walk the returned
    [recordings] are the records of P1, then those of P2, and so on, each
    page's records in their own order: as many records as the pages hold,
    the k-th of them having [source] set to "phone" and every other field
    as the k-th upstream record has it. *)
Theorem accumulation_order from to pageSize phone_net pages fuel :
  successful_walk from to pageSize phone_net pages ->
  MAX_PHONE_PAGES <= fuel ->
  exists w r,
    fetchAllPhoneRecordings from to pageSize phone_net fuel = Some w
    /\ settled w = inr r
    /\ Forall2 (tagged_copy phone)
         (List.concat
            (map (fun p => JS.coalesce_def (api_recordings p) []) pages))
         (fetched_recordings r)
    /\ fetched_recordings r =
         List.concat
           (map (fun p =>
                   map (fun u => with_source u phone)
                       (JS.coalesce_def (api_recordings p) []))
                pages)
    /\ Forall (fun u => source u = Some phone) (fetched_recordings r).
Proof.
  intros Hwalk Hfuel.
  rewrite (walk_result _ _ _ _ pages fuel Hwalk Hfuel).
  eexists. eexists. split; [reflexivity|]. simpl.
  split; [reflexivity|]. split; [|split].
  - rewrite flat_map_concat_map. unfold page_records.
    rewrite <- (map_map (fun p => JS.coalesce_def (api_recordings p) [])
                  (map (fun u => with_source u phone))).
    rewrite <- concat_map. apply with_source_copies.
  - now rewrite flat_map_concat_map.
  - apply page_records_tagged.
Qed.

Lemma accumulation_order_witness :
  exists w r,
    fetchAllPhoneRecordings "2025-01-01" "2025-03-31" (JS.Fin 100)
      Sample.three_pages 20 = Some w
    /\ settled w = inr r
    /\ Forall2 (tagged_copy phone)
         (List.concat
            (map (fun p => JS.coalesce_def (api_recordings p) [])
               [Sample.P1; Sample.P2; Sample.P3]))
         (fetched_recordings r)
    /\ fetched_recordings r =
         List.concat
           (map (fun p =>
                   map (fun u => with_source u phone)
                       (JS.coalesce_def (api_recordings p) []))
                [Sample.P1; Sample.P2; Sample.P3])
    /\ Forall (fun u => source u = Some phone) (fetched_recordings r).
Proof.
  apply (accumulation_order "2025-01-01" "2025-03-31" (JS.Fin 100)
           Sample.three_pages [Sample.P1; Sample.P2; Sample.P3] 20).
  - walk_by_computation.
  - unfold MAX_PHONE_PAGES. lia.
Defined.

(** The design's example: pages [a,b], [c], [d,e] give [a,b,c,d,e]. *)
Example three_pages_flattened :
  exists w r,
    fetchAllPhoneRecordings "2025-01-01" "2025-03-31" (JS.Fin 100)
      Sample.three_pages 20 = Some w
    /\ List.length (requests w) = 3
    /\ settled w = inr r
    /\ map id (fetched_recordings r) = ["a"; "b"; "c"; "d"; "e"]
    /\ map source (fetched_recordings r) =
         [Some phone; Some phone; Some phone; Some phone; Some phone].
Proof.
  eexists. eexists. split; [vm_compute; reflexivity|].
  simpl. repeat split; reflexivity.
Qed.

(** ** C4: atomic failure *)

(** C4.  When the pages received so far all supplied a cursor and the next
    request fails with [e] (every way [fetchJson] rejects: transport
    failure, non-success response, unreadable body), the paginator's promise
    is rejected with [e]: a rejection carries the error and nothing else, so
    the records of the earlier pages are gone.  The orchestrator, on the
    phone path, then leaves its stored result as it was. *)
Theorem failure_is_atomic from to pageSize phone_net pages e fuel :
  answered from to pageSize phone_net 0 None pages ->
  Forall (fun p => has_cursor p = true) pages ->
  List.length pages < MAX_PHONE_PAGES ->
  Http.fetchJson
    (phone_net (List.length pages)
       (phone_url from to pageSize (cursor_after pages))) = inl e ->
  MAX_PHONE_PAGES <= fuel ->
  (exists w,
     fetchAllPhoneRecordings from to pageSize phone_net fuel = Some w
     /\ settled w = JS.reject e
     /\ List.length (requests w) = S (List.length pages))
  /\ forall meeting_net Date_parse generateDemoRecordings st,
       fetchRecordings from to pageSize phone false phone_net meeting_net
         Date_parse generateDemoRecordings fuel st
       = Some {| data := data st; loading := false;
                 error := Some (error_text e) |}.
Proof.
  intros Hans Hcur Hlen Hfail Hfuel.
  assert (Hrun :
    fetchAllPhoneRecordings from to pageSize phone_net fuel =
    Some {| requests :=
              urls from to pageSize None pages
                ++ [phone_url from to pageSize (cursor_after pages)];
            settled := JS.reject e |}).
  { unfold fetchAllPhoneRecordings.
    apply (loop_rejects from to pageSize phone_net pages phone_init fuel e);
      simpl; try assumption; lia. }
  split.
  - eexists. split; [exact Hrun|]. simpl. split; [reflexivity|].
    rewrite length_app, urls_length. simpl. lia.
  - intros meeting_net Date_parse generateDemoRecordings st.
    unfold fetchRecordings, dispatch. simpl. rewrite Hrun. reflexivity.
Qed.

Lemma failure_is_atomic_witness :
  (exists w,
     fetchAllPhoneRecordings "2025-01-01" "2025-03-31" (JS.Fin 100)
       Sample.second_fails 20 = Some w
     /\ settled w = JS.reject (JS.new_Error "HTTP 500: upstream down")
     /\ List.length (requests w) = 2)
  /\ fetchRecordings "2025-01-01" "2025-03-31" (JS.Fin 100) phone false
       Sample.second_fails Sample.no_meetings Sample.no_dates Sample.no_demo
       20 Sample.stale
     = Some {| data := data Sample.stale; loading := false;
               error := Some "HTTP 500: upstream down" |}.
Proof.
  assert (H : answered "2025-01-01" "2025-03-31" (JS.Fin 100)
                Sample.second_fails 0 None [Sample.P1]).
  { simpl. split; reflexivity. }
  destruct (failure_is_atomic "2025-01-01" "2025-03-31" (JS.Fin 100)
              Sample.second_fails [Sample.P1]
              (JS.new_Error "HTTP 500: upstream down") 20 H) as [Hw Hhook].
  - repeat constructor.
  - unfold MAX_PHONE_PAGES. simpl. lia.
  - reflexivity.
  - unfold MAX_PHONE_PAGES. lia.
  - split; [exact Hw|].
    exact (Hhook Sample.no_meetings Sample.no_dates Sample.no_demo
             Sample.stale).
Defined.

(** ** The normaliser *)

(** *** C5: the effective start time *)

Lemma toISOString_truthy (t : Z) :
  JS.truthy_string (JSDate.toISOString t) = true.
Proof.
  unfold JSDate.toISOString.
  destruct (JSDate.civil_from_days (t / JSDate.msPerDay)) as [[y m] d].
  apply truthy_string_app_r. reflexivity.
Qed.

(** Sorting puts a least element first. *)
Lemma sort_times_head (l : list Z) :
  match sort_times l with
  | [] => l = []
  | d :: _ => In d l /\ forall u, In u l -> (d <= u)%Z
  end.
Proof.
  induction l as [|t tl IH]; simpl; [reflexivity|].
  destruct (sort_times tl) as [|d rest]; simpl.
  - subst tl. split; [now left|]. intros u [<- | []]. lia.
  - destruct IH as [Hin Hmin].
    destruct (t <=? d)%Z eqn:E.
    + apply Z.leb_le in E. split; [now left|].
      intros u [<- | Hu]; [lia|]. specialize (Hmin u Hu). lia.
    + apply Z.leb_gt in E. split; [now right|].
      intros u [<- | Hu]; [lia|]. now apply Hmin.
Qed.

(** [starts] holds the time values of the files with a valid start. *)
Lemma In_starts Date_parse (fs : list RecordingFile) (t : Z) :
  In t (starts Date_parse fs) <->
  exists f, In f fs /\ valid_start Date_parse f t.
Proof.
  unfold valid_start.
  induction fs as [|f tl IH]; simpl.
  - split; [contradiction|]. intros (f & [] & _).
  - split.
    + intros Hin.
      assert (Htl : In t (starts Date_parse tl) ->
                    exists f0, (f = f0 \/ In f0 tl) /\
                      exists s, f_recording_start f0 = Some s /\ s <> ""
                                /\ Date_parse s = Some t).
      { intros H. apply IH in H. destruct H as (f0 & Hf0 & Hv).
        exists f0. split; [now right | exact Hv]. }
      destruct (f_recording_start f) as [s|] eqn:Es; [|now apply Htl].
      destruct (JS.truthy_string s) eqn:Et; [|now apply Htl].
      destruct (Date_parse s) as [t'|] eqn:Ep; [|now apply Htl].
      destruct Hin as [<- | Hin]; [|now apply Htl].
      exists f. split; [now left|]. exists s.
      repeat split; auto. now apply truthy_string_nonempty.
    + intros (f0 & [<- | Hin] & s & Es & Hne & Ep).
      * rewrite Es. apply truthy_string_nonempty in Hne. rewrite Hne, Ep.
        now left.
      * assert (Htl : In t (starts Date_parse tl)).
        { apply IH. exists f0. split; [exact Hin|]. exists s. auto. }
        destruct (f_recording_start f) as [s'|]; [|exact Htl].
        destruct (JS.truthy_string s'); [|exact Htl].
        destruct (Date_parse s'); [now right | exact Htl].
Qed.

(** C5.  The [date_time] of a normalised session is the earliest start among
    the embedded files whose start timestamp parses to a valid date (as
    [toISOString] prints that instant), and the session's own [start_time]
    when no file has one. *)
Theorem earliest_start_selected Date_parse (m : Meeting) :
  (forall f0 t0,
     In f0 (files m) -> valid_start Date_parse f0 t0 ->
     (forall f t, In f (files m) -> valid_start Date_parse f t -> (t0 <= t)%Z) ->
     date_time (meeting_record Date_parse m) = Some (JSDate.toISOString t0))
  /\ ((forall f t, In f (files m) -> ~ valid_start Date_parse f t) ->
      date_time (meeting_record Date_parse m) = m_start_time m).
Proof.
  simpl. unfold firstStartIso.
  pose proof (sort_times_head (starts Date_parse (files m))) as Hs.
  destruct (sort_times (starts Date_parse (files m))) as [|d rest].
  - split.
    + intros f0 t0 Hin Hv _.
      assert (H : In t0 (starts Date_parse (files m))).
      { apply In_starts. exists f0. auto. }
      rewrite Hs in H. contradiction.
    + intros _. reflexivity.
  - destruct Hs as [Hd Hmin]. split.
    + intros f0 t0 Hin Hv Hleast.
      unfold JS.or_opt. simpl. rewrite toISOString_truthy.
      assert (Ht0 : In t0 (starts Date_parse (files m))).
      { apply In_starts. exists f0. auto. }
      apply In_starts in Hd. destruct Hd as (fd & Hfd & Hvd).
      specialize (Hleast fd d Hfd Hvd). specialize (Hmin t0 Ht0).
      replace d with t0 by lia. reflexivity.
    + intros Hnone. exfalso.
      apply In_starts in Hd. destruct Hd as (fd & Hfd & Hvd).
      exact (Hnone fd d Hfd Hvd).
Qed.

Lemma earliest_start_selected_witness :
  date_time
    (meeting_record Sample.parse (Sample.session (Some Sample.timed_files)))
  = Some "2025-11-05T09:00:00.000Z"
  /\ date_time (meeting_record Sample.parse (Sample.session None))
     = Some "2025-11-05T08:55:00Z".
Proof.
  split.
  - apply (proj1
             (earliest_start_selected Sample.parse
                (Sample.session (Some Sample.timed_files)))
             Sample.at_nine 1762333200000%Z).
    + simpl. right. left. reflexivity.
    + exists "2025-11-05T09:00Z". repeat split. discriminate.
    + intros f t Hin (s & Es & _ & Ep). simpl in Hin.
      destruct Hin as [<- | [<- | [<- | []]]];
        simpl in Es; injection Es as <-; vm_compute in Ep;
        try discriminate; injection Ep as <-; lia.
  - apply (proj2
             (earliest_start_selected Sample.parse (Sample.session None))).
    intros f t [].
Defined.

(** *** Rounded sums *)

Lemma round_magnitude_pos (a : Z) :
  (0 < a)%Z ->
  match JS.round_magnitude a with
  | Some m => (0 < m)%Z
  | None => True
  end.
Proof.
  intros Ha. unfold JS.round_magnitude.
  destruct (Z.log2 a <? 53)%Z eqn:En; [exact Ha|].
  apply Z.ltb_ge in En.
  set (s := (Z.log2 a - 52)%Z).
  assert (Hs : (0 < 2 ^ s)%Z) by (apply Z.pow_pos_nonneg; unfold s; lia).
  assert (Hle : (2 ^ s <= a)%Z).
  { transitivity (2 ^ Z.log2 a)%Z.
    - apply Z.pow_le_mono_r; unfold s; lia.
    - apply Z.log2_spec. exact Ha. }
  assert (Hq : (0 < a / 2 ^ s)%Z) by (apply Z.div_str_pos; lia).
  destruct (_ || _); destruct (2 ^ 1024 <=? _)%Z; trivial;
    apply Z.mul_pos_pos; lia.
Qed.


(** Rounding keeps the sign, and never gives NaN. *)
Lemma of_Z_sign (z : Z) :
  JS.isNaN (JS.of_Z z) = false
  /\ ((0 <= z)%Z -> nonneg (JS.of_Z z))
  /\ (positive (JS.of_Z z) = true <-> (0 < z)%Z).
Proof.
  destruct z as [|p|p]; unfold JS.of_Z.
  - split; [reflexivity|]. split; [intros _; simpl; lia|].
    simpl. split; [discriminate | lia].
  - pose proof (round_magnitude_pos (Z.pos p) ltac:(lia)) as Hm.
    destruct (JS.round_magnitude (Z.pos p)) as [m|]; simpl.
    + split; [reflexivity|]. split; [intros _; lia|].
      split; [intros _; lia | intros _; apply Z.ltb_lt; exact Hm].
    + split; [reflexivity|]. split; [intros _; exact I|].
      split; [intros _; lia | reflexivity].
  - pose proof (round_magnitude_pos (Z.pos p) ltac:(lia)) as Hm.
    destruct (JS.round_magnitude (Z.pos p)) as [m|]; simpl.
    + split; [reflexivity|]. split; [intros H; lia|].
      split; [intros H; apply Z.ltb_lt in H; lia | intros H; lia].
    + split; [reflexivity|]. split; [intros H; lia|].
      split; [discriminate | intros H; lia].
Qed.

(** *** C6: the total size *)

Lemma size_or_zero_numeric (f : RecordingFile) :
  size_or_zero f = JS.coalesce_def (numeric_size f) (JS.Fin 0).
Proof.
  unfold size_or_zero, numeric_size.
  destruct (f_file_size f) as [| | |n| |]; try reflexivity.
  destruct n; reflexivity.
Qed.






Lemma fold_sizes_map (fs : list RecordingFile) : forall acc,
  fold_left (fun acc f => JS.add acc (size_or_zero f)) fs acc
  = fold_left JS.add
      (map (fun f => JS.coalesce_def (numeric_size f) (JS.Fin 0)) fs) acc.
Proof.
  induction fs as [|f tl IH]; intros acc; simpl; [reflexivity|].
  rewrite IH. now rewrite size_or_zero_numeric.
Qed.




(** Finite sizes that overflow total Infinity, not NaN, and sizes beyond
    2^53 are rounded as doubles are: [2^53, 1, 1] total 2^53. *)
Example total_size_overflows_and_rounds :
  totalSizeBytes
    [Sample.sized (JS.VNum (JS.of_Z (10 ^ 308)));
     Sample.sized (JS.VNum (JS.of_Z (10 ^ 308)))] = JS.PosInf
  /\ totalSizeBytes
       [Sample.sized (JS.VNum (JS.Fin (2 ^ 53)));
        Sample.sized (JS.VNum (JS.Fin 1));
        Sample.sized (JS.VNum (JS.Fin 1))] = JS.Fin (2 ^ 53).
Proof. split; vm_compute; reflexivity. Qed.

(** *** C10: when [file_size] is present *)

Lemma add_nonneg (a b : JS.number) :
  nonneg a -> nonneg b ->
  nonneg (JS.add a b)
  /\ (positive (JS.add a b) = true <-> positive a = true \/ positive b = true).
Proof.
  destruct a as [x| | |], b as [y| | |]; simpl; try contradiction;
    intros Ha Hb.
  - destruct (of_Z_sign (x + y)) as (_ & Hnn & Hpos).
    split; [apply Hnn; lia|].
    rewrite Hpos, !Z.ltb_lt. lia.
  - split; [exact I|]. split; auto.
  - split; [exact I|]. split; auto.
  - split; [exact I|]. split; auto.
Qed.

Lemma size_or_zero_nonneg (f : RecordingFile) :
  (forall n, f_file_size f = JS.VNum n -> negative n = false) ->
  nonneg (size_or_zero f)
  /\ (positive (size_or_zero f) = true <->
      exists n, f_file_size f = JS.VNum n /\ positive n = true).
Proof.
  intros Hneg. unfold size_or_zero.
  destruct (f_file_size f) as [| | |n| |] eqn:E; simpl;
    try (split; [lia|]; split; [discriminate | intros (n & Hn & _); discriminate]).
  specialize (Hneg n eq_refl).
  destruct n as [z| | |]; simpl in *.
  - apply Z.ltb_ge in Hneg. split; [exact Hneg|]. split.
    + intros H. exists (JS.Fin z). auto.
    + intros (n & Hn & Hp). injection Hn as <-. exact Hp.
  - split; [exact I|]. split; auto. intros _. exists JS.PosInf. auto.
  - discriminate.
  - split; [lia|]. split; [discriminate|].
    intros (n & Hn & Hp). injection Hn as <-. discriminate.
Qed.

Lemma fold_sizes_nonneg (fs : list RecordingFile) : forall acc,
  nonneg acc ->
  (forall f n, In f fs -> f_file_size f = JS.VNum n -> negative n = false) ->
  nonneg (fold_left (fun acc f => JS.add acc (size_or_zero f)) fs acc)
  /\ (positive (fold_left (fun acc f => JS.add acc (size_or_zero f)) fs acc)
        = true
      <-> positive acc = true
          \/ exists f n, In f fs /\ f_file_size f = JS.VNum n
                         /\ positive n = true).
Proof.
  induction fs as [|f tl IH]; intros acc Hacc Hneg; simpl.
  - split; [exact Hacc|]. split; [now left|].
    intros [H | (f & n & [] & _)]. exact H.
  - destruct (size_or_zero_nonneg f) as [Hs Hps].
    { intros n. apply Hneg. now left. }
    destruct (add_nonneg acc (size_or_zero f) Hacc Hs) as [Ha Hpa].
    destruct (IH (JS.add acc (size_or_zero f)) Ha) as [Hr Hpr].
    { intros g n Hg. apply Hneg. now right. }
    split; [exact Hr|].
    rewrite Hpr, Hpa, Hps. split.
    + intros [[H | (n & Hn & Hp)] | (g & n & Hg & Hn & Hp)].
      * now left.
      * right. exists f, n. auto.
      * right. exists g, n. auto.
    + intros [H | (g & n & [<- | Hg] & Hn & Hp)].
      * left. now left.
      * left. right. exists n. auto.
      * right. exists g, n. auto.
Qed.

(** C10 (as stated, refuted).  With sizes [5, -5] a file carries a positive
    numeric size, yet the total is 0 and [file_size] is absent. *)
Lemma positive_size_without_file_size :
  file_size
    (meeting_record Sample.no_dates
       (Sample.session (Some Sample.cancelling_files))) = None
  /\ exists f n,
       In f (files (Sample.session (Some Sample.cancelling_files)))
       /\ f_file_size f = JS.VNum n /\ positive n = true.
Proof.
  split; [reflexivity|].
  exists (Sample.sized (JS.VNum (JS.Fin 5))), (JS.Fin 5).
  simpl. auto.
Qed.

(** C10 (amended).  [file_size] is absent when the total is 0, in particular
    when there is no file or no file has a numeric size, and otherwise it is
    the total, a number other than 0 and NaN.  When no file carries a
    negative size, [file_size] is a positive number exactly when some file
    carries a positive numeric size. *)
Theorem file_size_presence Date_parse (m : Meeting) :
  (totalSizeBytes (files m) = JS.Fin 0 ->
   file_size (meeting_record Date_parse m) = None)
  /\ (Forall (fun f => numeric_size f = None) (files m) ->
      file_size (meeting_record Date_parse m) = None)
  /\ (forall n, file_size (meeting_record Date_parse m) = Some n ->
        n = totalSizeBytes (files m) /\ n <> JS.Fin 0 /\ n <> JS.NaN)
  /\ ((forall f n, In f (files m) -> f_file_size f = JS.VNum n ->
                   negative n = false) ->
      ((exists n, file_size (meeting_record Date_parse m) = Some n
                  /\ positive n = true)
       <-> exists f n, In f (files m) /\ f_file_size f = JS.VNum n
                       /\ positive n = true)).
Proof.
  simpl. repeat split.
  - intros H. now rewrite H.
  - intros Hnone.
    assert (H : totalSizeBytes (files m) = JS.Fin 0).
    { unfold totalSizeBytes. rewrite fold_sizes_map.
      induction Hnone as [|f tl Hf _ IH]; simpl; [reflexivity|].
      rewrite Hf. simpl. exact IH. }
    now rewrite H.
  - destruct (JS.truthy_number (totalSizeBytes (files m)));
      [congruence | discriminate].
  - intros E. destruct (JS.truthy_number (totalSizeBytes (files m))) eqn:T;
      [|discriminate].
    injection H as <-. rewrite E in T. discriminate.
  - intros E. destruct (JS.truthy_number (totalSizeBytes (files m))) eqn:T;
      [|discriminate].
    injection H as <-. rewrite E in T. discriminate.
  - intros (n & Hn & Hp).
    destruct (fold_sizes_nonneg (files m) (JS.Fin 0)) as [_ Hpos];
      [simpl; lia | assumption |].
    destruct (JS.truthy_number (totalSizeBytes (files m))); [|discriminate].
    injection Hn as <-. apply Hpos in Hp.
    destruct Hp as [Hp | Hp]; [discriminate | exact Hp].
  - intros Hex.
    destruct (fold_sizes_nonneg (files m) (JS.Fin 0)) as [_ Hpos];
      [simpl; lia | assumption |].
    assert (Hp : positive (totalSizeBytes (files m)) = true).
    { apply Hpos. now right. }
    exists (totalSizeBytes (files m)). split; [|exact Hp].
    destruct (totalSizeBytes (files m)) as [z| | |]; try discriminate;
      try reflexivity.
    simpl in Hp. apply Z.ltb_lt in Hp. destruct z; try reflexivity; lia.
Qed.

Lemma file_size_presence_witness :
  file_size (meeting_record Sample.no_dates (Sample.session None)) = None
  /\ ((exists n,
         file_size
           (meeting_record Sample.no_dates
              (Sample.session (Some Sample.sized_files))) = Some n
         /\ positive n = true)
      <-> exists f n,
            In f (files (Sample.session (Some Sample.sized_files)))
            /\ f_file_size f = JS.VNum n /\ positive n = true).
Proof.
  split.
  - apply (proj1 (file_size_presence Sample.no_dates (Sample.session None))).
    reflexivity.
  - apply (proj2 (proj2 (proj2
             (file_size_presence Sample.no_dates
                (Sample.session (Some Sample.sized_files)))))).
    intros f n Hin Hs. simpl in Hin.
    destruct Hin as [<- | [<- | [<- | [<- | []]]]]; simpl in Hs;
      try discriminate; injection Hs as <-; reflexivity.
Defined.

(** The design's example: sizes [100, NaN, "x", 50] give a [file_size] of
    150. *)
Example sized_files_file_size :
  file_size
    (meeting_record Sample.no_dates (Sample.session (Some Sample.sized_files)))
  = Some (JS.Fin 150).
Proof. reflexivity. Qed.

(** *** C7: the host fallback chains *)

(** C7.  The host email is the first non-empty of [hostEmail], [host_email]
    and [owner_email], else the empty string; the host name is the first
    non-empty of [hostName], [owner_name], that email and [topic], else
    "Unknown", so it is never empty.  The record carries both, and a session
    with no identity field but a non-empty [owner_email] gets that address
    as [host_email] and as [host_name]. *)
Theorem host_fallback_chain Date_parse (mm : Meeting) :
  hostEmail mm =
    first_nonempty [m_hostEmail mm; m_host_email mm; m_owner_email mm] ""
  /\ hostName mm =
       first_nonempty
         [m_hostName mm; m_owner_name mm; Some (hostEmail mm); m_topic mm]
         "Unknown"
  /\ hostName mm <> ""
  /\ host_email (meeting_record Date_parse mm) = Some (hostEmail mm)
  /\ host_name (meeting_record Date_parse mm) = Some (hostName mm)
  /\ (forall e,
        e <> "" ->
        m_hostEmail mm = None -> m_host_email mm = None ->
        m_hostName mm = None -> m_owner_name mm = None ->
        m_owner_email mm = Some e ->
        host_email (meeting_record Date_parse mm) = Some e
        /\ host_name (meeting_record Date_parse mm) = Some e).
Proof.
  split; [|split; [|split; [|split; [|split]]]].
  - unfold hostEmail, JS.or_str, JS.or_opt, JS.truthy_opt.
    destruct (m_hostEmail mm) as [[|]|], (m_host_email mm) as [[|]|],
      (m_owner_email mm) as [[|]|]; reflexivity.
  - unfold hostName, JS.or_str, JS.or_opt, JS.truthy_opt.
    destruct (m_hostName mm) as [[|]|], (m_owner_name mm) as [[|]|],
      (hostEmail mm) as [|], (m_topic mm) as [[|]|]; reflexivity.
  - apply truthy_string_nonempty. unfold hostName.
    apply or_str_truthy. reflexivity.
  - reflexivity.
  - reflexivity.
  - intros e He H1 H2 H3 H4 H5. simpl.
    unfold hostName, hostEmail. rewrite H1, H2, H3, H4, H5.
    destruct e as [|c e']; [contradiction|]. split; reflexivity.
Qed.

Lemma host_fallback_chain_witness :
  host_email (meeting_record Sample.no_dates Sample.owner_only)
    = Some "a@x.com"
  /\ host_name (meeting_record Sample.no_dates Sample.owner_only)
     = Some "a@x.com".
Proof.
  apply (proj2 (proj2 (proj2 (proj2 (proj2
           (host_fallback_chain Sample.no_dates Sample.owner_only)))))
           "a@x.com");
    try reflexivity.
  discriminate.
Defined.

(** ** The orchestrator *)

Lemma error_text_first_nonempty (e : JS.Thrown) :
  error_text e = first_nonempty [JS.message_of e] (JS.String_of_thrown e).
Proof.
  unfold error_text, JS.or_str.
  destruct (JS.message_of e) as [[|c s]|]; reflexivity.
Qed.

(** An invocation always settles when the model follows the paginator for
    [MAX_PHONE_PAGES] iterations or more, and it leaves [loading] false. *)
Lemma fetchRecordings_settles from to pageSize source_filter demoMode
  phone_net meeting_net Date_parse generateDemoRecordings fuel st :
  MAX_PHONE_PAGES <= fuel ->
  exists st',
    fetchRecordings from to pageSize source_filter demoMode phone_net
      meeting_net Date_parse generateDemoRecordings fuel st = Some st'
    /\ loading st' = false.
Proof.
  intros Hfuel. unfold fetchRecordings, dispatch.
  destruct demoMode.
  - destruct (generateDemoRecordings from to); simpl; eexists; split;
      reflexivity.
  - destruct (SourceFilter_eqb source_filter phone).
    + destruct (fetchAllPhoneRecordings_terminates from to pageSize phone_net
                  fuel Hfuel) as (w & Hw & _).
      rewrite Hw. simpl.
      destruct (settled w); simpl; eexists; split; reflexivity.
    + destruct (fetchAllMeetingRecordings _ _ _ _ _); simpl; eexists; split;
        reflexivity.
Qed.

(** *** C8: error isolation *)

(** C8.  When the path that [fetchRecordings] dispatches to throws [e] (the
    demo generator in demo mode, else the paginator for the phone source,
    else the normaliser), the invocation ends with [error] set to the
    message of [e], or to [String(e)] when [e] has no message or an empty
    one, with [data] as it was before the invocation and with [loading]
    false. *)
Theorem error_keeps_stale_data from to pageSize source_filter demoMode
  phone_net meeting_net Date_parse generateDemoRecordings fuel st e :
  (demoMode = true /\ generateDemoRecordings from to = inl e)
  \/ (demoMode = false /\ source_filter = phone
      /\ exists w,
           fetchAllPhoneRecordings from to pageSize phone_net fuel = Some w
           /\ settled w = inl e)
  \/ (demoMode = false /\ source_filter = meetings
      /\ fetchAllMeetingRecordings from to pageSize meeting_net Date_parse
         = inl e) ->
  fetchRecordings from to pageSize source_filter demoMode phone_net
    meeting_net Date_parse generateDemoRecordings fuel st
  = Some {| data := data st;
            loading := false;
            error :=
              Some (first_nonempty [JS.message_of e] (JS.String_of_thrown e)) |}.
Proof.
  rewrite <- error_text_first_nonempty.
  unfold fetchRecordings, dispatch.
  intros [[-> Hdemo] | [(-> & -> & w & Hw & Hrej) | (-> & -> & Hmeet)]].
  - rewrite Hdemo. reflexivity.
  - simpl. rewrite Hw. simpl. rewrite Hrej. reflexivity.
  - simpl. rewrite Hmeet. reflexivity.
Qed.

Lemma error_keeps_stale_data_witness :
  fetchRecordings "2025-01-01" "2025-03-31" (JS.Fin 100) phone false
    Sample.second_fails Sample.no_meetings Sample.no_dates Sample.no_demo
    20 Sample.stale
  = Some {| data := data Sample.stale;
            loading := false;
            error := Some "HTTP 500: upstream down" |}.
Proof.
  apply (error_keeps_stale_data "2025-01-01" "2025-03-31" (JS.Fin 100) phone
           false Sample.second_fails Sample.no_meetings Sample.no_dates
           Sample.no_demo 20 Sample.stale
           (JS.new_Error "HTTP 500: upstream down")).
  right. left. repeat split.
  eexists. split; [vm_compute; reflexivity | reflexivity].
Defined.

(** An error without a message is shown through [String(e)]. *)
Example error_text_of_thrown_string :
  error_text (JS.ThrownValue (JS.VStr "boom")) = "boom"
  /\ error_text (JS.ErrorObject "TypeError" "") = "TypeError"
  /\ error_text (JS.ErrorObject "TypeError" "Failed to fetch")
     = "Failed to fetch".
Proof. repeat split. Qed.

(** ** C9: the source tag and the optional fields *)

Lemma answered_In from to pageSize phone_net pages p : forall k token,
  answered from to pageSize phone_net k token pages ->
  In p pages ->
  exists k' url, Http.fetchJson (phone_net k' url) = inr p.
Proof.
  induction pages as [|q tl IH]; intros k token Hans Hin; [contradiction|].
  destruct Hans as [Hq Htl]. destruct Hin as [<- | Hin].
  - eexists. eexists. exact Hq.
  - exact (IH _ _ Htl Hin).
Qed.

(** The records of a fulfilled run come from the pages of a successful
    walk. *)
Lemma fulfilled_recordings from to pageSize phone_net fuel w r :
  fetchAllPhoneRecordings from to pageSize phone_net fuel = Some w ->
  settled w = inr r ->
  exists pages,
    successful_walk from to pageSize phone_net pages
    /\ fetched_recordings r = flat_map page_records pages.
Proof.
  intros Hw Hr.
  destruct (fulfilled_walk _ _ _ _ _ _ _ Hw Hr) as (pages & Hwalk).
  exists pages. split; [exact Hwalk|].
  assert (Hbig : fetchAllPhoneRecordings from to pageSize phone_net
                   (Nat.max fuel MAX_PHONE_PAGES) = Some w).
  { unfold fetchAllPhoneRecordings in *.
    apply (loop_fuel_mono _ _ _ _ fuel); [exact Hw | lia]. }
  rewrite (walk_result _ _ _ _ pages _ Hwalk) in Hbig by lia.
  injection Hbig as <-. simpl in Hr. injection Hr as <-. reflexivity.
Qed.

(** C9 (as stated, refuted).  The phone endpoint answers with a record that
    has a [topic]; the paginator returns it tagged "phone" with that topic
    still in place. *)
Lemma phone_record_keeps_upstream_topic :
  exists w r rec,
    fetchAllPhoneRecordings "2025-01-01" "2025-03-31" (JS.Fin 100)
      Sample.topic_page 20 = Some w
    /\ settled w = inr r
    /\ In rec (fetched_recordings r)
    /\ source rec = Some phone
    /\ topic rec = Some "Weekly sync".
Proof.
  eexists. eexists. eexists. split; [vm_compute; reflexivity|].
  simpl. split; [reflexivity|]. split; [left; reflexivity|].
  split; reflexivity.
Qed.

(** C9 (amended).  Every record of the paginator has the tag "phone" and is
    an upstream record with nothing but [source] replaced, so that [topic],
    [host_email] and [files_types] are what the upstream record has (absent
    when it has none).  Every record of the normaliser has the tag
    "meetings", no [download_url], and the [topic], [host_email] and
    [files_types] that the normaliser derives from the session. *)
Theorem source_tag_selects_fields :
  (forall from to pageSize phone_net fuel w r rec,
     fetchAllPhoneRecordings from to pageSize phone_net fuel = Some w ->
     settled w = inr r ->
     In rec (fetched_recordings r) ->
     source rec = Some phone
     /\ exists k url p u,
          Http.fetchJson (phone_net k url) = inr p
          /\ In u (JS.coalesce_def (api_recordings p) [])
          /\ rec = with_source u phone
          /\ topic rec = topic u
          /\ host_email rec = host_email u
          /\ files_types rec = files_types u)
  /\ (forall from to pageSize meeting_net Date_parse r rec,
        fetchAllMeetingRecordings from to pageSize meeting_net Date_parse
          = inr r ->
        In rec (fetched_recordings r) ->
        source rec = Some meetings
        /\ download_url rec = None
        /\ exists m,
             rec = meeting_record Date_parse m
             /\ topic rec = m_topic m
             /\ host_email rec = Some (hostEmail m)
             /\ files_types rec = Some (fileTypes (files m))).
Proof.
  split.
  - intros from to pageSize phone_net fuel w r rec Hw Hr Hin.
    destruct (fulfilled_recordings _ _ _ _ _ _ _ Hw Hr)
      as (pages & Hwalk & Hrecs).
    rewrite Hrecs in Hin. apply in_flat_map in Hin.
    destruct Hin as (p & Hp & Hin).
    unfold page_records in Hin. apply in_map_iff in Hin.
    destruct Hin as (u & <- & Hu).
    split; [reflexivity|].
    destruct (answered_In _ _ _ _ _ p 0 None (walk_answered _ _ _ _ _ Hwalk) Hp)
      as (k & url & Hk).
    exists k, url, p, u. repeat split; assumption.
  - intros from to pageSize meeting_net Date_parse r rec Hr Hin.
    unfold fetchAllMeetingRecordings, JS.await in Hr.
    destruct (Http.fetchJson _) as [e|api]; [discriminate|].
    injection Hr as <-. simpl in Hin. apply in_map_iff in Hin.
    destruct Hin as (m & <- & _).
    repeat split. exists m. repeat split.
Qed.

Lemma source_tag_selects_fields_witness :
  (source (with_source (Sample.call "c") phone) = Some phone
   /\ exists k url p u,
        Http.fetchJson (Sample.three_pages k url) = inr p
        /\ In u (JS.coalesce_def (api_recordings p) [])
        /\ with_source (Sample.call "c") phone = with_source u phone
        /\ topic (with_source (Sample.call "c") phone) = topic u
        /\ host_email (with_source (Sample.call "c") phone) = host_email u
        /\ files_types (with_source (Sample.call "c") phone) = files_types u)
  /\ (source (meeting_record Sample.parse
                (Sample.session (Some Sample.timed_files))) = Some meetings
      /\ download_url (meeting_record Sample.parse
                         (Sample.session (Some Sample.timed_files))) = None
      /\ exists m,
           meeting_record Sample.parse
             (Sample.session (Some Sample.timed_files))
           = meeting_record Sample.parse m
           /\ topic (meeting_record Sample.parse
                       (Sample.session (Some Sample.timed_files))) = m_topic m
           /\ host_email (meeting_record Sample.parse
                            (Sample.session (Some Sample.timed_files)))
              = Some (hostEmail m)
           /\ files_types (meeting_record Sample.parse
                             (Sample.session (Some Sample.timed_files)))
              = Some (fileTypes (files m))).
Proof.
  split.
  - apply (proj1 source_tag_selects_fields "2025-01-01" "2025-03-31"
             (JS.Fin 100) Sample.three_pages 20
             {| requests :=
                  urls "2025-01-01" "2025-03-31" (JS.Fin 100) None
                    [Sample.P1; Sample.P2; Sample.P3];
                settled :=
                  JS.resolve
                    {| fetched_from := "2025-01-01";
                       fetched_to := "2025-02-28";
                       fetched_recordings :=
                         flat_map page_records
                           [Sample.P1; Sample.P2; Sample.P3] |} |}
             {| fetched_from := "2025-01-01";
                fetched_to := "2025-02-28";
                fetched_recordings :=
                  flat_map page_records
                    [Sample.P1; Sample.P2; Sample.P3] |}
             (with_source (Sample.call "c") phone)).
    + reflexivity.
    + reflexivity.
    + simpl. right. right. left. reflexivity.
  - apply (proj2 source_tag_selects_fields "2025-11-01" "2025-11-30"
             (JS.Fin 100)
             (fun _ =>
                Sample.ok_reply
                  {| mapi_from := None; mapi_to := None;
                     mapi_meetings :=
                       Some [Sample.session (Some Sample.timed_files)] |})
             Sample.parse
             {| fetched_from := "2025-11-01";
                fetched_to := "2025-11-30";
                fetched_recordings :=
                  [meeting_record Sample.parse
                     (Sample.session (Some Sample.timed_files))] |}
             (meeting_record Sample.parse
                (Sample.session (Some Sample.timed_files)))).
    + reflexivity.
    + simpl. left. reflexivity.
Defined.

(* ===================================================================== *)
(** * Part III: further properties of the hook                            *)
(* ===================================================================== *)

(** ** [fetchJson] *)

(** X1.  [fetchJson] is fulfilled exactly when the response is [ok] and its
    body reads as JSON, with the value read.  It rejects on a transport
    failure with the failure itself, on a response that is not [ok] with
    the error "HTTP <status>: <body text>" (the body is then never read as
    JSON), and on an unreadable body with the reader's error. *)
Theorem fetchJson_outcome {T : Type} (reply : Http.Reply T) :
  (forall v, Http.fetchJson reply = inr v <->
     exists res, reply = inr res /\ Http.ok res = true /\ Http.json res = inr v)
  /\ (forall e, reply = inl e -> Http.fetchJson reply = inl e)
  /\ (forall res, reply = inr res -> Http.ok res = false ->
        Http.fetchJson reply =
        inl (JS.ErrorObject "Error"
               ("HTTP " ++ Http.String_of_status (Http.status res) ++ ": "
                  ++ Http.text res)))
  /\ (forall res e, reply = inr res -> Http.ok res = true ->
        Http.json res = inl e -> Http.fetchJson reply = inl e).
Proof.
  unfold Http.fetchJson, JS.await, JS.reject, JS.new_Error.
  repeat split.
  - intros H. destruct reply as [e|res]; [discriminate|]. simpl in H.
    destruct (Http.ok res) eqn:Hok; simpl in H; [|discriminate].
    exists res. auto.
  - intros (res & -> & Hok & Hj). simpl. now rewrite Hok.
  - intros e ->. reflexivity.
  - intros res -> Hok. simpl. now rewrite Hok.
  - intros res e -> Hok Hj. simpl. now rewrite Hok.
Qed.

Lemma fetchJson_outcome_witness :
  Http.fetchJson (Sample.error_reply 500 "upstream down"
                  : Http.Reply ApiResponse)
  = inl (JS.ErrorObject "Error" "HTTP 500: upstream down").
Proof.
  apply (proj1 (proj2 (proj2
           (fetchJson_outcome (Sample.error_reply 500 "upstream down"))))
           {| Http.ok := false; Http.status := 500;
              Http.text := "upstream down";
              Http.json :=
                inl (JS.ErrorObject "SyntaxError" "Unexpected token") |});
    reflexivity.
Defined.

(** ** The page size *)

(** X2.  The page size sent upstream is never NaN and never above 300; it
    is 100 when [pageSize] is 0 or NaN, and the smaller of [pageSize] and
    300 when [pageSize] is positive.  There is no lower bound: a negative
    [pageSize] is sent as it is. *)
Theorem zoomPageSize_capped (pageSize : JS.number) :
  JS.isNaN (zoomPageSize pageSize) = false
  /\ number_le (zoomPageSize pageSize) (JS.Fin 300) = true
  /\ (JS.truthy_number pageSize = false ->
      zoomPageSize pageSize = JS.Fin 100)
  /\ (forall z, pageSize = JS.Fin z -> (0 < z)%Z ->
        zoomPageSize pageSize = JS.Fin (Z.min z 300))
  /\ (forall z, pageSize = JS.Fin z -> (z < 0)%Z ->
        zoomPageSize pageSize = JS.Fin z).
Proof.
  unfold zoomPageSize.
  destruct pageSize as [z| | |]; simpl.
  - destruct z as [|p|p]; simpl; repeat split; try reflexivity;
      try discriminate;
      try (apply Z.leb_le; lia);
      try (intros z' Hz' Hpos; injection Hz' as <-; try lia; f_equal; lia).
  - repeat split; try reflexivity; try discriminate.
  - repeat split; try reflexivity; try discriminate.
  - repeat split; try reflexivity; try discriminate.
Qed.

Lemma zoomPageSize_capped_witness :
  zoomPageSize JS.NaN = JS.Fin 100
  /\ zoomPageSize (JS.Fin 1000) = JS.Fin (Z.min 1000 300)
  /\ zoomPageSize (JS.Fin (-5)) = JS.Fin (-5).
Proof.
  split; [|split].
  - apply (proj1 (proj2 (proj2 (zoomPageSize_capped JS.NaN)))). reflexivity.
  - apply (proj1 (proj2 (proj2 (proj2 (zoomPageSize_capped (JS.Fin 1000)))))
             1000%Z); [reflexivity | lia].
  - apply (proj2 (proj2 (proj2 (proj2 (zoomPageSize_capped (JS.Fin (-5))))))
             (-5)%Z); [reflexivity | lia].
Defined.

(** ** The requests of the paginator *)

Lemma phone_params_token from to pageSize (token : option string) :
  Worker.get "next_page_token" (phone_params from to pageSize token)
  = if JS.truthy_opt token then token else None.
Proof.
  unfold phone_params.
  destruct token as [[|c t]|]; reflexivity.
Qed.

Lemma phone_params_fixed from to pageSize (token : option string) :
  Worker.get "from" (phone_params from to pageSize token) = Some from
  /\ Worker.get "to" (phone_params from to pageSize token) = Some to
  /\ Worker.get "page_size" (phone_params from to pageSize token)
     = Some (JS.String_of_number (zoomPageSize pageSize))
  /\ Worker.get "query_date_type" (phone_params from to pageSize token)
     = Some "start_time".
Proof.
  unfold phone_params.
  destruct token as [[|c t]|]; repeat split; reflexivity.
Qed.

Lemma nth_error_urls from to pageSize pages : forall token i p,
  nth_error pages i = Some p ->
  S i < List.length pages ->
  nth_error (urls from to pageSize token pages) (S i)
  = Some (phone_url from to pageSize (api_next_page_token p)).
Proof.
  induction pages as [|q tl IH]; intros token i p Hp Hlen; [destruct i; discriminate|].
  destruct i as [|i]; simpl in Hp.
  - injection Hp as ->. destruct tl as [|q' tl']; [simpl in Hlen; lia|].
    reflexivity.
  - simpl in Hlen. simpl. apply IH; [exact Hp | lia].
Qed.

Lemma Forall_removelast_nth {A : Type} (P : A -> Prop) (l : list A) :
  Forall P (removelast l) ->
  forall i x, nth_error l i = Some x -> S i < List.length l -> P x.
Proof.
  induction l as [|a tl IH]; intros HF i x Hx Hlen; [destruct i; discriminate|].
  destruct tl as [|b tl']; [simpl in Hlen; lia|].
  change (removelast (a :: b :: tl')) with (a :: removelast (b :: tl')) in HF.
  inversion HF as [|? ? Ha Htl]; subst.
  destruct i as [|i]; simpl in Hx.
  - injection Hx as <-. exact Ha.
  - apply (IH Htl i x Hx). simpl in Hlen |- *. lia.
Qed.

(** X3.  Over the pages P1..Pn of a successful walk the paginator sends one
    request per page and none after the last: the first request has no
    [next_page_token], and the request after page Pi carries exactly the
    token of Pi. *)
Theorem cursor_is_threaded from to pageSize phone_net pages fuel :
  successful_walk from to pageSize phone_net pages ->
  MAX_PHONE_PAGES <= fuel ->
  exists w,
    fetchAllPhoneRecordings from to pageSize phone_net fuel = Some w
    /\ List.length (requests w) = List.length pages
    /\ (exists u, nth_error (requests w) 0 = Some u
                  /\ Worker.get "next_page_token" (Http.query u) = None)
    /\ forall i p,
         nth_error pages i = Some p -> S i < List.length pages ->
         exists u, nth_error (requests w) (S i) = Some u
                   /\ Worker.get "next_page_token" (Http.query u)
                      = api_next_page_token p
                   /\ JS.truthy_opt (api_next_page_token p) = true.
Proof.
  intros Hwalk Hfuel.
  rewrite (walk_result _ _ _ _ pages fuel Hwalk Hfuel).
  eexists. split; [reflexivity|]. cbn [requests].
  split; [apply urls_length|]. split.
  - destruct pages as [|p tl]; [destruct (walk_nonempty _ _ _ _ _ Hwalk eq_refl)|].
    eexists. split; [reflexivity|]. reflexivity.
  - intros i p Hp Hlen.
    assert (Hc : has_cursor p = true).
    { exact (Forall_removelast_nth _ pages
               (walk_chained _ _ _ _ _ Hwalk) i p Hp Hlen). }
    eexists. split; [apply nth_error_urls; eassumption|].
    cbn [phone_url Http.query]. rewrite phone_params_token.
    unfold has_cursor in Hc. rewrite Hc. auto.
Qed.

Lemma cursor_is_threaded_witness :
  exists w,
    fetchAllPhoneRecordings "2025-01-01" "2025-03-31" (JS.Fin 100)
      Sample.three_pages 20 = Some w
    /\ List.length (requests w)
       = List.length [Sample.P1; Sample.P2; Sample.P3]
    /\ (exists u, nth_error (requests w) 0 = Some u
                  /\ Worker.get "next_page_token" (Http.query u) = None)
    /\ forall i p,
         nth_error [Sample.P1; Sample.P2; Sample.P3] i = Some p ->
         S i < List.length [Sample.P1; Sample.P2; Sample.P3] ->
         exists u, nth_error (requests w) (S i) = Some u
                   /\ Worker.get "next_page_token" (Http.query u)
                      = api_next_page_token p
                   /\ JS.truthy_opt (api_next_page_token p) = true.
Proof.
  apply (cursor_is_threaded "2025-01-01" "2025-03-31" (JS.Fin 100)
           Sample.three_pages [Sample.P1; Sample.P2; Sample.P3] 20).
  - walk_by_computation.
  - unfold MAX_PHONE_PAGES. lia.
Defined.

Lemma loop_requests from to pageSize phone_net fuel : forall st w,
  phone_loop from to pageSize phone_net fuel st = Some w ->
  Forall (fun u => exists token, u = phone_url from to pageSize token)
    (requests w).
Proof.
  induction fuel as [|fuel IH]; intros st w H; [discriminate|].
  simpl in H.
  destruct (Http.fetchJson _) as [e|p].
  - injection H as <-. simpl. repeat constructor. eexists. reflexivity.
  - destruct (phone_continue _).
    + destruct (phone_loop from to pageSize phone_net fuel _) as [w'|] eqn:E;
        [|discriminate].
      injection H as <-. simpl. constructor.
      * eexists. reflexivity.
      * exact (IH _ _ E).
    + injection H as <-. simpl. repeat constructor. eexists. reflexivity.
Qed.

(** X4.  Whatever the upstream answers, every request the paginator sends
    goes to [/api/phone/recordings] with the caller's [from] and [to], the
    capped page size and [query_date_type=start_time]. *)
Theorem every_request_is_well_formed from to pageSize phone_net fuel w :
  fetchAllPhoneRecordings from to pageSize phone_net fuel = Some w ->
  Forall
    (fun u =>
       Http.path u = "/api/phone/recordings"
       /\ Worker.get "from" (Http.query u) = Some from
       /\ Worker.get "to" (Http.query u) = Some to
       /\ Worker.get "page_size" (Http.query u)
          = Some (JS.String_of_number (zoomPageSize pageSize))
       /\ Worker.get "query_date_type" (Http.query u) = Some "start_time")
    (requests w).
Proof.
  intros Hw. unfold fetchAllPhoneRecordings in Hw.
  apply loop_requests in Hw.
  eapply Forall_impl; [|exact Hw].
  intros u (token & ->). split; [reflexivity|].
  apply phone_params_fixed.
Qed.

Lemma every_request_is_well_formed_witness :
  Forall
    (fun u =>
       Http.path u = "/api/phone/recordings"
       /\ Worker.get "from" (Http.query u) = Some "2025-01-01"
       /\ Worker.get "to" (Http.query u) = Some "2025-03-31"
       /\ Worker.get "page_size" (Http.query u)
          = Some (JS.String_of_number (zoomPageSize (JS.Fin 1000)))
       /\ Worker.get "query_date_type" (Http.query u) = Some "start_time")
    (urls "2025-01-01" "2025-03-31" (JS.Fin 1000) None
       [Sample.P1; Sample.P2; Sample.P3]).
Proof.
  apply (every_request_is_well_formed "2025-01-01" "2025-03-31"
           (JS.Fin 1000) Sample.three_pages 20
           {| requests :=
                urls "2025-01-01" "2025-03-31" (JS.Fin 1000) None
                  [Sample.P1; Sample.P2; Sample.P3];
              settled :=
                JS.resolve
                  {| fetched_from := "2025-01-01";
                     fetched_to := "2025-02-28";
                     fetched_recordings :=
                       flat_map page_records
                         [Sample.P1; Sample.P2; Sample.P3] |} |}).
  vm_compute. reflexivity.
Defined.

(** X5.  A first page whose [next_page_token] is missing or is the empty
    string ends the walk at once: one request, and the result is that page
    alone. *)
Theorem empty_cursor_ends_walk from to pageSize phone_net p fuel :
  Http.fetchJson (phone_net 0 (phone_url from to pageSize None)) = inr p ->
  api_next_page_token p = None \/ api_next_page_token p = Some "" ->
  1 <= fuel ->
  fetchAllPhoneRecordings from to pageSize phone_net fuel =
  Some {| requests := [phone_url from to pageSize None];
          settled :=
            JS.resolve
              {| fetched_from := JS.coalesce_def (api_from p) from;
                 fetched_to := JS.coalesce_def (api_to p) to;
                 fetched_recordings := page_records p |} |}.
Proof.
  intros Hp Htok Hfuel.
  destruct fuel as [|fuel]; [lia|].
  unfold fetchAllPhoneRecordings. simpl. rewrite Hp.
  unfold phone_continue. simpl. rewrite coalesce_None_r.
  assert (Hfalse : JS.truthy_opt (api_next_page_token p) = false).
  { destruct Htok as [-> | ->]; reflexivity. }
  rewrite Hfalse. simpl. unfold phone_return, page_records. simpl.
  destruct (api_to p); reflexivity.
Qed.

Lemma empty_cursor_ends_walk_witness :
  fetchAllPhoneRecordings "2025-01-01" "2025-03-31" (JS.Fin 100)
    (fun _ _ => Sample.ok_reply (Sample.page None None (Some "") [Sample.call "a"]))
    1 =
  Some {| requests := [phone_url "2025-01-01" "2025-03-31" (JS.Fin 100) None];
          settled :=
            JS.resolve
              {| fetched_from := "2025-01-01";
                 fetched_to := "2025-03-31";
                 fetched_recordings :=
                   page_records
                     (Sample.page None None (Some "") [Sample.call "a"]) |} |}.
Proof.
  apply (empty_cursor_ends_walk "2025-01-01" "2025-03-31" (JS.Fin 100)
           (fun _ _ =>
              Sample.ok_reply
                (Sample.page None None (Some "") [Sample.call "a"]))
           (Sample.page None None (Some "") [Sample.call "a"]) 1).
  - reflexivity.
  - right. reflexivity.
  - lia.
Defined.

(** ** The fields of a normalised session *)

Lemma filter_absorb {A : Type} (P Q : A -> bool) (l : list A) :
  (forall y, P y = true -> Q y = true) ->
  filter P (filter Q l) = filter P l.
Proof.
  intros H. induction l as [|a tl IH]; simpl; [reflexivity|].
  destruct (Q a) eqn:Eq; simpl.
  - now rewrite IH.
  - destruct (P a) eqn:Ep; [|exact IH].
    apply H in Ep. congruence.
Qed.

Lemma filter_both {A : Type} (P Q : A -> bool) (l : list A) :
  filter P (filter Q l) = filter (fun y => Q y && P y) l.
Proof.
  induction l as [|a tl IH]; simpl; [reflexivity|].
  destruct (Q a); simpl; [|exact IH].
  destruct (P a); now rewrite IH.
Qed.

(** [dedup seen l] keeps the first occurrences of [l] that are not in
    [seen]. *)
Lemma dedup_first_occurrences (l : list string) : forall seen,
  dedup seen l =
  filter (fun y => negb (existsb (String.eqb y) seen)) (first_occurrences l).
Proof.
  induction l as [|x tl IH]; intros seen; simpl; [reflexivity|].
  destruct (existsb (String.eqb x) seen) eqn:E; simpl.
  - rewrite IH. symmetry. apply filter_absorb.
    intros y Hy. destruct (String.eqb_spec y x) as [-> | _]; [|reflexivity].
    rewrite E in Hy. discriminate.
  - f_equal. rewrite IH, filter_both. apply filter_ext.
    intros y. simpl. now rewrite negb_orb.
Qed.

Lemma first_occurrences_In (l : list string) (s : string) :
  In s (first_occurrences l) <-> In s l.
Proof.
  induction l as [|x tl IH]; simpl; [reflexivity|].
  rewrite filter_In, IH. split.
  - intros [H | [H _]]; auto.
  - intros [H | H]; [now left|].
    destruct (String.eqb_spec s x) as [-> | Hne]; [now left|].
    right. split; [exact H | reflexivity].
Qed.

Lemma first_occurrences_NoDup (l : list string) :
  NoDup (first_occurrences l).
Proof.
  induction l as [|x tl IH]; simpl; constructor.
  - rewrite filter_In. intros [_ H]. rewrite String.eqb_refl in H.
    discriminate.
  - now apply NoDup_filter.
Qed.

Lemma first_occurrences_length (l : list string) :
  List.length (first_occurrences l) <= List.length l.
Proof.
  induction l as [|x tl IH]; simpl; [lia|].
  pose proof (filter_length_le (fun y => negb (String.eqb y x))
                (first_occurrences tl)).
  lia.
Qed.

Lemma first_occurrences_NoDup_id (l : list string) :
  NoDup l -> first_occurrences l = l.
Proof.
  induction 1 as [|x tl Hx Hnd IH]; simpl; [reflexivity|].
  rewrite IH. f_equal.
  apply forallb_filter_id. apply forallb_forall.
  intros y Hy. destruct (String.eqb_spec y x) as [-> | _];
    [contradiction | reflexivity].
Qed.

Lemma file_type_strings (fs : list RecordingFile) :
  flat_map (fun f => nonempty_string (JS.or (f_file_type f) (JS.VStr ""))) fs
  = type_names fs.
Proof.
  unfold type_names. induction fs as [|f tl IH]; simpl; [reflexivity|].
  rewrite IH. f_equal.
  destruct (f_file_type f) as [| |b|n|s|]; try reflexivity.
  - destruct b; reflexivity.
  - unfold JS.or. simpl. destruct (JS.truthy_number n); reflexivity.
  - destruct s; reflexivity.
Qed.

Lemma type_names_In (fs : list RecordingFile) (s : string) :
  In s (type_names fs) <->
  s <> "" /\ exists f, In f fs /\ f_file_type f = JS.VStr s.
Proof.
  unfold type_names. rewrite in_flat_map. split.
  - intros (f & Hf & Hs).
    destruct (f_file_type f) as [| | | |t|] eqn:E; try contradiction.
    destruct (String.eqb_spec t "") as [-> | Hne]; [contradiction|].
    destruct Hs as [<- | []]. split; [exact Hne|]. exists f. auto.
  - intros (Hne & f & Hf & E). exists f. split; [exact Hf|]. rewrite E.
    destruct (String.eqb_spec s "") as [-> | _]; [contradiction|].
    now left.
Qed.

Lemma type_names_length (fs : list RecordingFile) :
  List.length (type_names fs) <= List.length fs.
Proof.
  unfold type_names. induction fs as [|f tl IH]; simpl; [lia|].
  rewrite length_app.
  destruct (f_file_type f) as [| | | |t|]; simpl; try lia.
  destruct (String.eqb t ""); simpl; lia.
Qed.

(** X7.  [files_types] lists the file types of the session that are
    non-empty strings, each once, in the order of their first occurrence;
    a type that is not a string, or is empty, is left out.  There are never
    more types than files. *)
Theorem file_types_are_distinct (fs : list RecordingFile) :
  fileTypes fs = first_occurrences (type_names fs)
  /\ NoDup (fileTypes fs)
  /\ (forall s, In s (fileTypes fs) <->
        s <> "" /\ exists f, In f fs /\ f_file_type f = JS.VStr s)
  /\ List.length (fileTypes fs) <= List.length fs
  /\ (NoDup (type_names fs) -> fileTypes fs = type_names fs).
Proof.
  assert (E : fileTypes fs = first_occurrences (type_names fs)).
  { unfold fileTypes. rewrite file_type_strings, dedup_first_occurrences.
    simpl. apply forallb_filter_id. apply forallb_forall. reflexivity. }
  rewrite E. repeat split.
  - apply first_occurrences_NoDup.
  - apply first_occurrences_In, type_names_In in H. apply H.
  - apply first_occurrences_In, type_names_In in H. apply H.
  - intros H. apply first_occurrences_In, type_names_In. exact H.
  - pose proof (first_occurrences_length (type_names fs)).
    pose proof (type_names_length fs). lia.
  - apply first_occurrences_NoDup_id.
Qed.

Lemma file_types_are_distinct_witness :
  fileTypes [Sample.at_ten; Sample.at_no_time]
  = type_names [Sample.at_ten; Sample.at_no_time].
Proof.
  apply (proj2 (proj2 (proj2 (proj2
           (file_types_are_distinct [Sample.at_ten; Sample.at_no_time]))))).
  simpl. repeat constructor; simpl; intuition discriminate.
Defined.

(** File types ["MP4", "MP4", "M4A"] give ["MP4", "M4A"]. *)
Example timed_files_types :
  fileTypes Sample.timed_files = ["MP4"; "M4A"].
Proof. reflexivity. Qed.

Lemma hostName_truthy (m : Meeting) : JS.truthy_string (hostName m) = true.
Proof. unfold hostName. apply or_str_truthy. reflexivity. Qed.

(** X6.  The [id] of a normalised session is its [uuid] when that is a
    non-empty string and [String(m.id)] otherwise.  A session with neither
    gets the text "undefined", so two such sessions get the same [id]. *)
Theorem record_id_fallback Date_parse (m : Meeting) :
  (forall u, m_uuid m = Some u -> u <> "" ->
     id (meeting_record Date_parse m) = u)
  /\ (m_uuid m = None \/ m_uuid m = Some "" ->
      id (meeting_record Date_parse m) = JS.String_of_value (m_id m))
  /\ (forall m',
        (m_uuid m = None \/ m_uuid m = Some "") -> m_id m = JS.VUndefined ->
        (m_uuid m' = None \/ m_uuid m' = Some "") -> m_id m' = JS.VUndefined ->
        id (meeting_record Date_parse m) = "undefined"
        /\ id (meeting_record Date_parse m') = "undefined").
Proof.
  simpl. repeat split.
  - intros u -> Hu. simpl. destruct u; [contradiction | reflexivity].
  - intros [-> | ->]; reflexivity.
  - destruct H as [-> | ->]; rewrite H0; reflexivity.
  - destruct H1 as [-> | ->]; rewrite H2; reflexivity.
Qed.

Lemma record_id_fallback_witness :
  id (meeting_record Sample.no_dates
        {| m_uuid := None; m_id := JS.VNum (JS.Fin 42);
           m_topic := None; m_start_time := None; m_duration := None;
           m_host_id := None; m_recording_files := None;
           m_hostEmail := None; m_host_email := None; m_owner_email := None;
           m_hostName := None; m_owner_name := None;
           m_autoDelete := JS.VUndefined; m_auto_delete := JS.VUndefined;
           m_autoDeleteDate := JS.VUndefined;
           m_auto_delete_date := JS.VUndefined |})
  = "42".
Proof.
  apply (proj1 (proj2
           (record_id_fallback Sample.no_dates
              {| m_uuid := None; m_id := JS.VNum (JS.Fin 42);
                 m_topic := None; m_start_time := None; m_duration := None;
                 m_host_id := None; m_recording_files := None;
                 m_hostEmail := None; m_host_email := None;
                 m_owner_email := None;
                 m_hostName := None; m_owner_name := None;
                 m_autoDelete := JS.VUndefined; m_auto_delete := JS.VUndefined;
                 m_autoDeleteDate := JS.VUndefined;
                 m_auto_delete_date := JS.VUndefined |}))).
  left. reflexivity.
Defined.

(** X8.  A session whose [recording_files] is missing, is not an array or
    is empty is still normalised: it counts 0 files, has an empty list of
    file types and no [file_size], and takes its [date_time] from the
    session's [start_time]. *)
Theorem session_without_files Date_parse (m : Meeting) :
  m_recording_files m = None \/ m_recording_files m = Some [] ->
  recording_files (meeting_record Date_parse m) = Some []
  /\ files_count (meeting_record Date_parse m) = Some 0
  /\ files_types (meeting_record Date_parse m) = Some []
  /\ file_size (meeting_record Date_parse m) = None
  /\ date_time (meeting_record Date_parse m) = m_start_time m.
Proof.
  intros H.
  assert (E : files m = []).
  { unfold files. destruct H as [-> | ->]; reflexivity. }
  simpl. rewrite E. repeat split.
Qed.

Lemma session_without_files_witness :
  recording_files (meeting_record Sample.parse Sample.owner_only) = Some []
  /\ files_count (meeting_record Sample.parse Sample.owner_only) = Some 0
  /\ files_types (meeting_record Sample.parse Sample.owner_only) = Some []
  /\ file_size (meeting_record Sample.parse Sample.owner_only) = None
  /\ date_time (meeting_record Sample.parse Sample.owner_only)
     = m_start_time Sample.owner_only.
Proof.
  apply (session_without_files Sample.parse Sample.owner_only).
  left. reflexivity.
Defined.

(** X9.  The owner's name of a normalised session is always the resolved
    host name (the two fallbacks after it are never used) and is never
    empty; the callee name is the host email when there is one and the host
    name otherwise, so it is never empty either; the caller name is the
    topic. *)
Theorem display_names Date_parse (m : Meeting) :
  owner_name (owner (meeting_record Date_parse m)) = hostName m
  /\ owner_name (owner (meeting_record Date_parse m)) <> ""
  /\ callee_name (meeting_record Date_parse m)
     = first_nonempty [Some (hostEmail m)] (hostName m)
  /\ callee_name (meeting_record Date_parse m) <> ""
  /\ caller_name (meeting_record Date_parse m) = m_topic m.
Proof.
  pose proof (hostName_truthy m) as Hn.
  assert (Ho : owner_name (owner (meeting_record Date_parse m)) = hostName m).
  { simpl. unfold or_string. now rewrite Hn, Hn. }
  split; [exact Ho|]. split; [|split; [|split]].
  - rewrite Ho. now apply truthy_string_nonempty.
  - simpl. unfold or_string. destruct (hostEmail m); reflexivity.
  - apply truthy_string_nonempty. simpl. unfold or_string.
    destruct (JS.truthy_string (hostEmail m)) eqn:E; assumption.
  - reflexivity.
Qed.

(** ** The states of the orchestrator *)

(** X10.  Every invocation of [fetchRecordings] ends with [loading] false
    and in one of two ways: with no error and a fresh envelope whose
    [next_page_token] is null and whose [total_records] is the number of
    its records, or with an error message and the result data it started
    with.  An error left by an earlier invocation does not survive a
    success. *)
Theorem fetch_ends_in_success_or_error from to pageSize source_filter
  demoMode phone_net meeting_net Date_parse generateDemoRecordings fuel st :
  MAX_PHONE_PAGES <= fuel ->
  exists st',
    fetchRecordings from to pageSize source_filter demoMode phone_net
      meeting_net Date_parse generateDemoRecordings fuel st = Some st'
    /\ loading st' = false
    /\ ((error st' = None
         /\ exists f t recs,
              data st' =
              Some {| api_from := Some f; api_to := Some t;
                      api_total_records := Some (List.length recs);
                      api_next_page_token := None;
                      api_recordings := Some recs |})
        \/ (exists msg, error st' = Some msg) /\ data st' = data st).
Proof.
  intros Hfuel. unfold fetchRecordings, dispatch.
  destruct demoMode.
  - destruct (generateDemoRecordings from to) as [e|recs]; simpl;
      eexists; (split; [reflexivity|]); simpl; (split; [reflexivity|]).
    + right. split; [eexists; reflexivity | reflexivity].
    + left. split; [reflexivity|]. do 3 eexists. reflexivity.
  - destruct (SourceFilter_eqb source_filter phone).
    + destruct (fetchAllPhoneRecordings_terminates from to pageSize phone_net
                  fuel Hfuel) as (w & Hw & _).
      rewrite Hw. simpl.
      destruct (settled w) as [e|r]; simpl;
        eexists; (split; [reflexivity|]); simpl; (split; [reflexivity|]).
      * right. split; [eexists; reflexivity | reflexivity].
      * left. split; [reflexivity|]. do 3 eexists. reflexivity.
    + destruct (fetchAllMeetingRecordings _ _ _ _ _) as [e|r]; simpl;
        eexists; (split; [reflexivity|]); simpl; (split; [reflexivity|]).
      * right. split; [eexists; reflexivity | reflexivity].
      * left. split; [reflexivity|]. do 3 eexists. reflexivity.
Qed.

Lemma fetch_ends_in_success_or_error_witness :
  exists st',
    fetchRecordings "2025-01-01" "2025-03-31" (JS.Fin 100) phone false
      Sample.three_pages Sample.no_meetings Sample.no_dates Sample.no_demo
      20 {| data := None; loading := false; error := Some "earlier" |}
    = Some st'
    /\ loading st' = false
    /\ ((error st' = None
         /\ exists f t recs,
              data st' =
              Some {| api_from := Some f; api_to := Some t;
                      api_total_records := Some (List.length recs);
                      api_next_page_token := None;
                      api_recordings := Some recs |})
        \/ (exists msg, error st' = Some msg) /\ data st' = None).
Proof.
  apply (fetch_ends_in_success_or_error "2025-01-01" "2025-03-31"
           (JS.Fin 100) phone false Sample.three_pages Sample.no_meetings
           Sample.no_dates Sample.no_demo 20
           {| data := None; loading := false; error := Some "earlier" |}).
  unfold MAX_PHONE_PAGES. lia.
Defined.

(** X11.  In demo mode the outcome of [fetchRecordings] is that of the demo
    generator alone: the envelope has the caller's [from] and [to] and the
    generated records, and neither the source filter, the page size nor
    anything the two endpoints would answer has any influence. *)
Theorem demo_mode_ignores_the_network from to generateDemoRecordings st
  pageSize source_filter phone_net meeting_net Date_parse fuel :
  fetchRecordings from to pageSize source_filter true phone_net meeting_net
    Date_parse generateDemoRecordings fuel st
  = Some
      match generateDemoRecordings from to with
      | inr recs =>
          {| data :=
               Some {| api_from := Some from; api_to := Some to;
                       api_total_records := Some (List.length recs);
                       api_next_page_token := None;
                       api_recordings := Some recs |};
             loading := false;
             error := None |}
      | inl e =>
          {| data := data st; loading := false;
             error := Some (error_text e) |}
      end.
Proof.
  unfold fetchRecordings, dispatch. simpl.
  destruct (generateDemoRecordings from to); reflexivity.
Qed.

(* ===================================================================== *)
(** * Part IV: properties of the backend                                   *)
(* ===================================================================== *)

(** ** Queries *)

Lemma get_remove_key_other (k k' : string) (ps : Http.URLSearchParams) :
  k' <> k -> Worker.get k' (Http.remove_key k ps) = Worker.get k' ps.
Proof.
  intros Hne. induction ps as [|[k0 v0] tl IH]; simpl; [reflexivity|].
  destruct (String.eqb_spec k k0) as [<- | Hk].
  - rewrite IH. destruct (String.eqb_spec k' k); [contradiction | reflexivity].
  - simpl. now rewrite IH.
Qed.

Lemma get_set (k k' v : string) (ps : Http.URLSearchParams) :
  Worker.get k' (Http.set k v ps)
  = if String.eqb k' k then Some v else Worker.get k' ps.
Proof.
  induction ps as [|[k0 v0] tl IH]; simpl.
  - destruct (String.eqb k' k); reflexivity.
  - destruct (String.eqb_spec k k0) as [<- | Hk]; simpl.
    + destruct (String.eqb_spec k' k) as [-> | Hne]; [reflexivity|].
      now apply get_remove_key_other.
    + rewrite IH. destruct (String.eqb_spec k' k) as [-> | Hne];
        [|reflexivity].
      destruct (String.eqb_spec k k0); [contradiction | reflexivity].
Qed.

Lemma keys_remove_key (k k' : string) (ps : Http.URLSearchParams) :
  In k' (keys (Http.remove_key k ps)) <-> k' <> k /\ In k' (keys ps).
Proof.
  unfold keys. induction ps as [|[k0 v0] tl IH]; simpl.
  - tauto.
  - destruct (String.eqb_spec k k0) as [<- | Hk]; simpl; rewrite IH.
    + split; [tauto|]. intros [Hne [H | H]]; [congruence | tauto].
    + split; [|tauto]. intros [<- | H]; [split; [congruence | tauto] | tauto].
Qed.

Lemma NoDup_keys_remove_key (k : string) (ps : Http.URLSearchParams) :
  NoDup (keys ps) -> NoDup (keys (Http.remove_key k ps)).
Proof.
  unfold keys. induction ps as [|[k0 v0] tl IH]; simpl; intros H;
    [constructor|].
  inversion H as [|? ? Hin Hnd]; subst.
  destruct (String.eqb k k0); [now apply IH|].
  simpl. constructor; [|now apply IH].
  intros Hc. apply (keys_remove_key k k0 tl) in Hc. tauto.
Qed.

Lemma keys_set (k v k' : string) (ps : Http.URLSearchParams) :
  In k' (keys (Http.set k v ps)) <-> k' = k \/ In k' (keys ps).
Proof.
  induction ps as [|[k0 v0] tl IH]; simpl.
  - unfold keys. simpl. split; intros [H | H]; auto.
  - destruct (String.eqb_spec k k0) as [<- | Hk].
    + change (keys ((k, v) :: Http.remove_key k tl))
        with (k :: keys (Http.remove_key k tl)).
      change (keys ((k, v0) :: tl)) with (k :: keys tl).
      simpl. rewrite keys_remove_key. split.
      * intros [H | [_ H]]; auto.
      * intros [H | [H | H]]; auto.
        destruct (String.eqb_spec k' k) as [-> | Hne]; auto.
    + change (keys ((k0, v0) :: Http.set k v tl))
        with (k0 :: keys (Http.set k v tl)).
      change (keys ((k0, v0) :: tl)) with (k0 :: keys tl).
      simpl. rewrite IH. tauto.
Qed.

(** [set] on a query without repeated names leaves none. *)
Lemma NoDup_keys_set (k v : string) (ps : Http.URLSearchParams) :
  NoDup (keys ps) -> NoDup (keys (Http.set k v ps)).
Proof.
  induction ps as [|[k0 v0] tl IH]; simpl; intros H.
  - unfold keys. simpl. repeat constructor. intros [].
  - change (keys ((k0, v0) :: tl)) with (k0 :: keys tl) in H.
    inversion H as [|? ? Hin Hnd]; subst.
    destruct (String.eqb_spec k k0) as [<- | Hk].
    + change (keys ((k, v) :: Http.remove_key k tl))
        with (k :: keys (Http.remove_key k tl)).
      constructor; [|now apply NoDup_keys_remove_key].
      rewrite keys_remove_key. tauto.
    + change (keys ((k0, v0) :: Http.set k v tl))
        with (k0 :: keys (Http.set k v tl)).
      constructor; [|now apply IH].
      rewrite keys_set. intros [Hc | Hc]; [congruence | contradiction].
Qed.

Lemma set_fresh (k v : string) (ps : Http.URLSearchParams) :
  ~ In k (keys ps) -> Http.set k v ps = ps ++ [(k, v)].
Proof.
  induction ps as [|[k0 v0] tl IH]; simpl; intros H; [reflexivity|].
  destruct (String.eqb_spec k k0) as [<- | Hk].
  - exfalso. apply H. now left.
  - rewrite IH; [reflexivity|]. intros Hc. apply H. now right.
Qed.

Lemma get_app (k : string) (a b : Http.URLSearchParams) :
  Worker.get k (a ++ b)
  = match Worker.get k a with
    | Some v => Some v
    | None => Worker.get k b
    end.
Proof.
  induction a as [|[k0 v0] tl IH]; simpl; [reflexivity|].
  destruct (String.eqb k k0); [reflexivity | exact IH].
Qed.

Lemma fold_set_spec (ps : Http.URLSearchParams) : forall acc,
  NoDup (keys acc) ->
  NoDup (keys (fold_left (fun a kv => Http.set (fst kv) (snd kv) a) ps acc))
  /\ forall k,
       Worker.get k (fold_left (fun a kv => Http.set (fst kv) (snd kv) a) ps acc)
       = match last_value k ps with
         | Some v => Some v
         | None => Worker.get k acc
         end.
Proof.
  induction ps as [|[k0 v0] tl IH]; intros acc Hnd; simpl.
  - split; [exact Hnd | reflexivity].
  - destruct (IH (Http.set k0 v0 acc) (NoDup_keys_set k0 v0 acc Hnd))
      as [Hnd' Hget].
    split; [exact Hnd'|]. intros k. rewrite Hget.
    unfold last_value. simpl. rewrite get_app. simpl.
    destruct (Worker.get k (rev tl)); [reflexivity|].
    rewrite get_set. destruct (String.eqb k k0); reflexivity.
Qed.

Lemma fold_set_fresh (ps : Http.URLSearchParams) : forall acc,
  NoDup (keys (acc ++ ps)) ->
  fold_left (fun a kv => Http.set (fst kv) (snd kv) a) ps acc = acc ++ ps.
Proof.
  induction ps as [|[k0 v0] tl IH]; intros acc Hnd; simpl.
  - now rewrite app_nil_r.
  - assert (Hfresh : ~ In k0 (keys acc)).
    { unfold keys in *. rewrite map_app in Hnd. simpl in Hnd.
      apply NoDup_remove_2 in Hnd. intros Hc. apply Hnd.
      apply in_or_app. now left. }
    rewrite (set_fresh k0 v0 acc Hfresh), IH.
    + now rewrite <- app_assoc.
    + now rewrite <- app_assoc.
Qed.

Lemma forward_params_unique (inbound : Http.URLSearchParams) :
  NoDup (keys inbound) -> Worker.forward_params inbound = inbound.
Proof.
  intros H. unfold Worker.forward_params.
  now apply (fold_set_fresh inbound []).
Qed.

(** X12.  The query that [handleGetRecordings] sends upstream names every
    parameter of the inbound query once, with the last value the inbound
    query gives it; an inbound query without repeated names is forwarded
    unchanged, in the same order. *)
Theorem query_is_forwarded (inbound : Http.URLSearchParams) :
  NoDup (keys (Worker.forward_params inbound))
  /\ (forall k,
        Worker.get k (Worker.forward_params inbound) = last_value k inbound)
  /\ (NoDup (keys inbound) -> Worker.forward_params inbound = inbound).
Proof.
  unfold Worker.forward_params.
  destruct (fold_set_spec inbound []) as [Hnd Hget]; [constructor|].
  split; [exact Hnd|]. split.
  - intros k. rewrite Hget. simpl. destruct (last_value k inbound); reflexivity.
  - apply forward_params_unique.
Qed.

Lemma query_is_forwarded_witness :
  Worker.forward_params [("from", "2025-01-01"); ("to", "2025-01-31")]
  = [("from", "2025-01-01"); ("to", "2025-01-31")].
Proof.
  apply (proj2 (proj2
           (query_is_forwarded
              [("from", "2025-01-01"); ("to", "2025-01-31")]))).
  unfold keys. simpl. repeat constructor; simpl; intuition discriminate.
Defined.

(** A repeated parameter is forwarded once, with its last value. *)
Example repeated_parameter_forwarded :
  Worker.forward_params
    [("from", "2025-01-01"); ("to", "2025-01-31"); ("from", "2025-01-15")]
  = [("from", "2025-01-15"); ("to", "2025-01-31")].
Proof. reflexivity. Qed.

Lemma phone_params_keys from to pageSize token :
  NoDup (keys (phone_params from to pageSize token)).
Proof.
  unfold phone_params, keys.
  destruct token as [[|c t]|]; simpl; repeat constructor; simpl;
    intuition discriminate.
Qed.

(** X13.  The query of every request of the paginator passes through the
    backend's forwarding loop unchanged: the upstream API receives the
    parameters of the hook as the hook wrote them. *)
Theorem hook_query_reaches_upstream from to pageSize token :
  Worker.forward_params (phone_params from to pageSize token)
  = phone_params from to pageSize token
  /\ Worker.get "next_page_token"
       (Worker.forward_params (phone_params from to pageSize token))
     = if JS.truthy_opt token then token else None.
Proof.
  assert (E : Worker.forward_params (phone_params from to pageSize token)
              = phone_params from to pageSize token).
  { apply forward_params_unique, phone_params_keys. }
  rewrite E. split; [reflexivity | apply phone_params_token].
Qed.

(** ** The token cache *)

Section TokenCacheProperties.

Variable J : Type.
Variable JSON_parse : string -> option J.
Variable URL_parse : string -> option Worker.ParsedUrl.
Variable btoa : string -> string.

Local Abbreviation getToken := (Worker.getZoomAccessToken J btoa).
Local Abbreviation tokenRequest := (Worker.token_request J btoa).

Lemma getToken_hit env now now' token_reply c :
  Worker.cache_hit c now = true ->
  getToken env now now' token_reply c
  = {| Worker.sent := [];
       Worker.result := JS.resolve (Worker.cachedToken c);
       Worker.cache_after := c |}.
Proof.
  unfold Worker.cache_hit, Worker.getZoomAccessToken. intros ->. reflexivity.
Qed.

Lemma getToken_miss_sent env now now' token_reply c :
  Worker.cache_hit c now = false ->
  Worker.sent (getToken env now now' token_reply c) = [tokenRequest env].
Proof.
  unfold Worker.cache_hit, Worker.getZoomAccessToken. intros ->.
  destruct (token_reply _) as [e|res]; [reflexivity|].
  destruct (Http.ok res); simpl; [|reflexivity].
  destruct (Http.json res); reflexivity.
Qed.


(** X15.  A call of [getZoomAccessToken] that fails leaves the cache as it
    was, after exactly one request to the token endpoint; when the endpoint
    answers with a status that is not [ok], the error reads
    "Failed to get Zoom token (<status>): <body text>". *)
Theorem failed_refresh_keeps_cache env now now' token_reply c :
  (forall e,
     Worker.result (getToken env now now' token_reply c) = inl e ->
     Worker.cache_after (getToken env now now' token_reply c) = c
     /\ Worker.sent (getToken env now now' token_reply c) = [tokenRequest env])
  /\ (forall res,
        Worker.cache_hit c now = false ->
        token_reply (tokenRequest env) = inr res ->
        Http.ok res = false ->
        Worker.result (getToken env now now' token_reply c)
        = inl (JS.ErrorObject "Error"
                 ("Failed to get Zoom token ("
                    ++ Http.String_of_status (Http.status res) ++ "): "
                    ++ Http.text res))).
Proof.
  unfold Worker.getZoomAccessToken, Worker.cache_hit. split.
  - intros e.
    destruct (JS.truthy_opt (Worker.cachedToken c)
              && (now <? Worker.cachedTokenExp c - 30000)%Z);
      [discriminate|].
    destruct (token_reply _) as [e0|res]; [auto|].
    destruct (Http.ok res); simpl; [|auto].
    destruct (Http.json res); simpl; [auto | discriminate].
  - intros res -> -> ->. reflexivity.
Qed.


End TokenCacheProperties.


Lemma failed_refresh_keeps_cache_witness :
  Worker.result
    (Worker.getZoomAccessToken unit WorkerSample.btoa WorkerSample.env
       6000000 6000001 WorkerSample.token_denied WorkerSample.warm)
  = inl (JS.ErrorObject "Error"
           "Failed to get Zoom token (401): bad credentials")
  /\ Worker.cache_after
       (Worker.getZoomAccessToken unit WorkerSample.btoa WorkerSample.env
          6000000 6000001 WorkerSample.token_denied WorkerSample.warm)
     = WorkerSample.warm.
Proof.
  split.
  - apply (proj2
             (failed_refresh_keeps_cache unit WorkerSample.btoa
                WorkerSample.env 6000000%Z
                6000001%Z WorkerSample.token_denied WorkerSample.warm)
             {| Http.ok := false; Http.status := 401;
                Http.text := "bad credentials";
                Http.json :=
                  inl (JS.ErrorObject "SyntaxError" "Unexpected token") |});
      reflexivity.
  - apply (proj1
             (failed_refresh_keeps_cache unit WorkerSample.btoa
                WorkerSample.env 6000000%Z
                6000001%Z WorkerSample.token_denied WorkerSample.warm)
             (JS.ErrorObject "Error"
                "Failed to get Zoom token (401): bad credentials")).
    reflexivity.
Defined.


(** ** The handlers *)

Lemma is_GET_at_true (req : Worker.Inbound) (p : string) :
  Worker.is_GET_at req p = true ->
  Worker.in_pathname req = p /\ Worker.in_method req = "GET".
Proof.
  unfold Worker.is_GET_at. intros H. apply andb_true_iff in H.
  destruct H as [Hp Hm]. apply String.eqb_eq in Hp, Hm. auto.
Qed.

Lemma download_headers_names (zoomRes : Worker.Upstream) :
  Forall (fun h => fst h = "Content-Type" \/ fst h = "Content-Disposition")
    (Worker.download_headers zoomRes).
Proof.
  unfold Worker.download_headers.
  destruct (JS.truthy_opt (Worker.get "content-type" _));
    destruct (JS.truthy_opt (Worker.get "content-disposition" _));
    simpl; repeat (apply Forall_cons; [simpl; auto|]); apply Forall_nil.
Qed.

Section HandlerProperties.

Variable J : Type.
Variable JSON_parse : string -> option J.
Variable URL_parse : string -> option Worker.ParsedUrl.
Variable btoa : string -> string.

Local Abbreviation getToken := (Worker.getZoomAccessToken J btoa).
Local Abbreviation tokenRequest := (Worker.token_request J btoa).
Local Abbreviation getRecordings := (Worker.handleGetRecordings J JSON_parse btoa).
Local Abbreviation download := (Worker.handleDownloadRecording J URL_parse btoa).
Local Abbreviation serve := (Worker.fetch J JSON_parse URL_parse btoa).

(** X17.  [handleGetRecordings] relays the status of the API whenever a
    response with a body can be built with it (200 to 599 except 204, 205
    and 304): an error status such as 401 or 500 is relayed, not thrown, and
    a body that is not JSON is relayed wrapped as [{ raw: text }].  For any
    other status the handler rejects, because it always attaches a body.
    It also rejects when the token call or the transport to the API
    rejects, and without a token it sends nothing to the API. *)
Theorem recordings_are_relayed req env now now' token_reply api c :
  Worker.cache_after (getRecordings req env now now' token_reply api c)
    = Worker.cache_after (getToken env now now' token_reply c)
  /\ (forall e,
        Worker.result (getToken env now now' token_reply c) = inl e ->
        Worker.result (getRecordings req env now now' token_reply api c)
          = inl e
        /\ Worker.sent (getRecordings req env now now' token_reply api c)
           = Worker.sent (getToken env now now' token_reply c))
  /\ (forall token e,
        Worker.result (getToken env now now' token_reply c) = inr token ->
        api (Worker.recordings_request req token) = inl e ->
        Worker.result (getRecordings req env now now' token_reply api c)
          = inl e)
  /\ (forall token up,
        Worker.result (getToken env now now' token_reply c) = inr token ->
        api (Worker.recordings_request req token) = inr up ->
        Worker.sent (getRecordings req env now now' token_reply api c)
          = Worker.sent (getToken env now now' token_reply c)
              ++ [Worker.recordings_request req token]
        /\ (Worker.admits_body (Worker.up_status up) = true ->
            exists r,
              Worker.result (getRecordings req env now now' token_reply api c)
                = inr r
              /\ Worker.res_status r = Worker.up_status up
              /\ (Worker.res_body r
                    = Some (Worker.BodyRaw J (Worker.up_text up))
                  <-> JSON_parse (Worker.up_text up) = None))
        /\ (Worker.admits_body (Worker.up_status up) = false ->
            exists name msg,
              Worker.result (getRecordings req env now now' token_reply api c)
                = inl (JS.ErrorObject name msg))).
Proof.
  unfold Worker.handleGetRecordings.
  destruct (Worker.result (getToken env now now' token_reply c))
    as [e0|token0] eqn:Ht.
  - split; [reflexivity|]. split; [|split].
    + intros e1 He. injection He as <-. split; reflexivity.
    + intros token e1 He. discriminate.
    + intros token up He. discriminate.
  - split; [|split; [|split]].
    + destruct (api _); reflexivity.
    + intros e He. discriminate.
    + intros token e Htok Hapi. injection Htok as <-. now rewrite Hapi.
    + intros token up Htok Hapi. injection Htok as <-. rewrite Hapi.
      cbn [Worker.sent Worker.result].
      split; [reflexivity|].
      unfold Worker.new_Response, Worker.admits_body.
      destruct ((Worker.up_status up <? 200)%nat
                || (599 <? Worker.up_status up)%nat); simpl.
      * split; [discriminate|]. intros _. eexists. eexists. reflexivity.
      * destruct (Worker.null_body_status (Worker.up_status up)); simpl.
        -- split; [discriminate|]. intros _. eexists. eexists. reflexivity.
        -- split; [|discriminate]. intros _.
           eexists. split; [reflexivity|]. simpl. split; [reflexivity|].
           destruct (JSON_parse (Worker.up_text up)); split; intros H;
             try discriminate; reflexivity.
Qed.

(** X18.  [handleDownloadRecording] contacts Zoom only for a target that
    parses as a URL whose host is exactly [zoom.us] and whose path starts
    with [/v2/phone/recording/download], and then only the token endpoint
    and that target.  A missing or empty [url] parameter, an unparsable
    target and any other host or path are answered with status 400
    ("Missing 'url' query parameter", "Invalid URL", "Blocked URL") without
    any request and without touching the token cache. *)
Theorem download_is_guarded req env now now' token_reply api c :
  (Worker.get "url" (Worker.in_query req) = None
   \/ Worker.get "url" (Worker.in_query req) = Some "" ->
   download req env now now' token_reply api c
   = Worker.done c (Worker.json J 400 "Missing 'url' query parameter"))
  /\ (forall target,
        Worker.get "url" (Worker.in_query req) = Some target ->
        target <> "" -> URL_parse target = None ->
        download req env now now' token_reply api c
        = Worker.done c (Worker.json J 400 "Invalid URL"))
  /\ (forall target zoomUrl,
        Worker.get "url" (Worker.in_query req) = Some target ->
        target <> "" -> URL_parse target = Some zoomUrl ->
        Worker.hostname zoomUrl <> "zoom.us"
        \/ String.prefix "/v2/phone/recording/download"
             (Worker.pathname zoomUrl) = false ->
        download req env now now' token_reply api c
        = Worker.done c (Worker.json J 400 "Blocked URL"))
  /\ (Worker.sent (download req env now now' token_reply api c) <> [] ->
      exists target zoomUrl,
        Worker.get "url" (Worker.in_query req) = Some target
        /\ URL_parse target = Some zoomUrl
        /\ Worker.hostname zoomUrl = "zoom.us"
        /\ String.prefix "/v2/phone/recording/download"
             (Worker.pathname zoomUrl) = true
        /\ Forall
             (fun rq =>
                rq = tokenRequest env
                \/ exists token, rq = Worker.download_request zoomUrl token)
             (Worker.sent (download req env now now' token_reply api c))).
Proof.
  unfold Worker.handleDownloadRecording.
  split; [|split; [|split]].
  - intros [-> | ->]; reflexivity.
  - intros target -> Hne Hparse.
    apply truthy_string_nonempty in Hne. simpl. rewrite Hne. simpl.
    now rewrite Hparse.
  - intros target zoomUrl -> Hne Hparse Hblocked.
    apply truthy_string_nonempty in Hne. simpl. rewrite Hne. simpl.
    rewrite Hparse.
    assert (Hb : Worker.blocked zoomUrl = true).
    { unfold Worker.blocked. destruct Hblocked as [Hh | Hp].
      - apply String.eqb_neq in Hh. now rewrite Hh.
      - rewrite Hp. apply orb_true_r. }
    now rewrite Hb.
  - destruct (Worker.get "url" (Worker.in_query req)) as [target|] eqn:Hget;
      simpl; [|intros H; now contradiction H].
    destruct (JS.truthy_string target) eqn:Htr; simpl;
      [|intros H; now contradiction H].
    destruct (URL_parse target) as [zoomUrl|] eqn:Hparse;
      [|intros H; now contradiction H].
    destruct (Worker.blocked zoomUrl) eqn:Hb; [intros H; now contradiction H|].
    intros _. exists target, zoomUrl.
    unfold Worker.blocked in Hb. apply orb_false_iff in Hb.
    destruct Hb as [Hh Hp]. apply negb_false_iff in Hh, Hp.
    apply String.eqb_eq in Hh.
    repeat split; auto.
    assert (Htok : Forall (fun rq => rq = tokenRequest env
                     \/ exists token, rq = Worker.download_request zoomUrl token)
                     (Worker.sent (getToken env now now' token_reply c))).
    { destruct (Worker.cache_hit c now) eqn:Hhit.
      - rewrite getToken_hit by exact Hhit. constructor.
      - rewrite getToken_miss_sent by exact Hhit. repeat constructor. }
    destruct (Worker.result (getToken env now now' token_reply c))
      as [e|token]; [exact Htok|].
    destruct (api _); simpl;
      (apply Forall_app; split;
       [ exact Htok
       | apply Forall_cons; [right; eexists; reflexivity | apply Forall_nil] ]).
Qed.

Lemma new_Response_fulfilled (body : option (Worker.Body J))
  (status : nat) (headers : list (string * string)) (r : Worker.Response J) :
  Worker.new_Response J body status headers = inr r ->
  Worker.res_status r = status /\ Worker.res_headers r = headers
  /\ Worker.res_body r = body.
Proof.
  unfold Worker.new_Response.
  destruct ((status <? 200)%nat || (599 <? status)%nat); [discriminate|].
  destruct body as [b|].
  - destruct (Worker.null_body_status status); [discriminate|].
    intros H. injection H as <-. auto.
  - intros H. injection H as <-. auto.
Qed.

(** X19.  A response of [handleDownloadRecording] carries no header other
    than [Content-Type] and [Content-Disposition]; each of the two is
    copied from the API's answer when that answer has a non-empty one and
    is absent otherwise, and the status of the API is passed on. *)
Theorem download_headers_are_filtered req env now now' token_reply api c :
  (forall r,
     Worker.result (download req env now now' token_reply api c) = inr r ->
     Forall (fun h => fst h = "Content-Type" \/ fst h = "Content-Disposition")
       (Worker.res_headers r))
  /\ (forall zoomRes,
        Worker.get "Content-Type" (Worker.download_headers zoomRes)
        = (if JS.truthy_opt (Worker.get "content-type"
                               (Worker.up_headers zoomRes))
           then Worker.get "content-type" (Worker.up_headers zoomRes)
           else None)
        /\ Worker.get "Content-Disposition" (Worker.download_headers zoomRes)
           = (if JS.truthy_opt (Worker.get "content-disposition"
                                  (Worker.up_headers zoomRes))
              then Worker.get "content-disposition"
                     (Worker.up_headers zoomRes)
              else None))
  /\ (forall r,
        Worker.result (download req env now now' token_reply api c) = inr r ->
        Worker.sent (download req env now now' token_reply api c) <> [] ->
        exists rq zoomRes,
          api rq = inr zoomRes
          /\ Worker.res_status r = Worker.up_status zoomRes
          /\ Worker.res_headers r = Worker.download_headers zoomRes).
Proof.
  assert (Hjson : forall msg r,
            Worker.json J 400 msg = inr r ->
            Forall (fun h => fst h = "Content-Type"
                             \/ fst h = "Content-Disposition")
              (Worker.res_headers r)).
  { intros msg r H. apply new_Response_fulfilled in H.
    destruct H as (_ & -> & _).
    apply Forall_cons; [now left | apply Forall_nil]. }
  split; [|split].
  - intros r. unfold Worker.handleDownloadRecording.
    destruct (negb _); [apply Hjson|].
    destruct (URL_parse _) as [zoomUrl|]; [|apply Hjson].
    destruct (Worker.blocked zoomUrl); [apply Hjson|].
    destruct (Worker.result (getToken env now now' token_reply c));
      [discriminate|].
    destruct (api _) as [e|zoomRes]; [discriminate|].
    cbn [Worker.result]. intros H. apply new_Response_fulfilled in H.
    destruct H as (_ & -> & _). apply download_headers_names.
  - intros zoomRes. unfold Worker.download_headers.
    destruct (Worker.get "content-type" (Worker.up_headers zoomRes))
      as [ct|];
      destruct (Worker.get "content-disposition" (Worker.up_headers zoomRes))
        as [cd|]; simpl;
      try destruct (JS.truthy_string ct); try destruct (JS.truthy_string cd);
      split; reflexivity.
  - intros r. unfold Worker.handleDownloadRecording.
    destruct (negb _); [intros _ H; now contradiction H|].
    destruct (URL_parse _) as [zoomUrl|]; [|intros _ H; now contradiction H].
    destruct (Worker.blocked zoomUrl); [intros _ H; now contradiction H|].
    destruct (Worker.result (getToken env now now' token_reply c));
      [discriminate|].
    destruct (api _) as [e|zoomRes] eqn:Hapi; [discriminate|].
    cbn [Worker.result]. intros H _. apply new_Response_fulfilled in H.
    destruct H as (Hs & Hh & _). eexists. eexists.
    split; [exact Hapi|]. auto.
Qed.

(** X20.  The router lets a request reach Zoom, or change the token cache,
    only when it is a GET of [/api/phone/recordings] or of
    [/api/phone/recordings/download]; a request with any other method is
    handed to the static assets, or answered with the plain 200 text when
    there are none. *)
Theorem only_phone_routes_reach_zoom req env now now' token_reply api c :
  (Worker.sent (serve req env now now' token_reply api c) <> []
   \/ Worker.cache_after (serve req env now now' token_reply api c) <> c ->
   Worker.in_method req = "GET"
   /\ (Worker.in_pathname req = "/api/phone/recordings"
       \/ Worker.in_pathname req = "/api/phone/recordings/download"))
  /\ (Worker.in_method req <> "GET" ->
      serve req env now now' token_reply api c
      = match Worker.ASSETS env with
        | Some assets =>
            {| Worker.sent := []; Worker.result := assets req;
               Worker.cache_after := c |}
        | None =>
            Worker.done c
              (Worker.new_Response J
                 (Some (Worker.BodyText J "Recording Explorer backend"))
                 200 [])
        end).
Proof.
  unfold Worker.fetch. split.
  - destruct (Worker.is_GET_at req "/api/phone/recordings") eqn:E1.
    { intros _. apply is_GET_at_true in E1. destruct E1. auto. }
    destruct (Worker.is_GET_at req "/api/phone/recordings/download") eqn:E2.
    { intros _. apply is_GET_at_true in E2. destruct E2. auto. }
    destruct (Worker.is_GET_at req "/api/meeting/recordings");
      [simpl; intros [H | H]; now contradiction H|].
    destruct (Worker.is_GET_at req "/api/meeting/identity");
      [simpl; intros [H | H]; now contradiction H|].
    destruct (Worker.ASSETS env); simpl; intros [H | H]; now contradiction H.
  - intros Hm. unfold Worker.is_GET_at.
    apply String.eqb_neq in Hm. rewrite Hm, !andb_false_r. reflexivity.
Qed.

End HandlerProperties.

Lemma recordings_are_relayed_witness :
  exists r,
       Worker.result
         (Worker.handleGetRecordings unit WorkerSample.no_json
            WorkerSample.btoa WorkerSample.post_recordings WorkerSample.env
            0 1 WorkerSample.fresh_token WorkerSample.api_unauthorized
            Worker.initial_cache) = inr r
       /\ Worker.res_status r = 401
       /\ (Worker.res_body r = Some (Worker.BodyRaw unit "nope")
           <-> WorkerSample.no_json "nope" = None).
Proof.
  apply (proj1 (proj2
           (proj2 (proj2 (proj2
              (recordings_are_relayed unit WorkerSample.no_json
                 WorkerSample.btoa WorkerSample.post_recordings
                 WorkerSample.env 0%Z 1%Z WorkerSample.fresh_token
                 WorkerSample.api_unauthorized Worker.initial_cache)))
              (Some "tok")
              {| Worker.up_status := 401; Worker.up_headers := [];
                 Worker.up_has_body := true; Worker.up_text := "nope" |}
              eq_refl eq_refl)));
    reflexivity.
Defined.

Lemma download_is_guarded_witness :
  Worker.handleDownloadRecording unit WorkerSample.parse_url WorkerSample.btoa
    (WorkerSample.download_of
       "https://evil.example/v2/phone/recording/download/abc")
    WorkerSample.env 0 1 WorkerSample.fresh_token WorkerSample.api_file
    WorkerSample.warm
  = Worker.done WorkerSample.warm (Worker.json unit 400 "Blocked URL").
Proof.
  apply (proj1 (proj2 (proj2
           (download_is_guarded unit WorkerSample.parse_url WorkerSample.btoa
              (WorkerSample.download_of
                 "https://evil.example/v2/phone/recording/download/abc")
              WorkerSample.env 0%Z 1%Z WorkerSample.fresh_token
              WorkerSample.api_file WorkerSample.warm)))
           "https://evil.example/v2/phone/recording/download/abc"
           {| Worker.hostname := "evil.example";
              Worker.pathname := "/v2/phone/recording/download/abc";
              Worker.href :=
                "https://evil.example/v2/phone/recording/download/abc" |}).
  - reflexivity.
  - discriminate.
  - reflexivity.
  - left. discriminate.
Defined.

(** A download of a Zoom recording with a warm cache: one request, to the
    target, and of the API's headers only the content type comes back. *)
Example download_of_a_zoom_recording :
  Worker.handleDownloadRecording unit WorkerSample.parse_url WorkerSample.btoa
    (WorkerSample.download_of
       "https://zoom.us/v2/phone/recording/download/abc")
    WorkerSample.env 0 1 WorkerSample.token_denied WorkerSample.api_file
    WorkerSample.warm
  = {| Worker.sent :=
         [ {| Worker.out_url :=
                Worker.url_of_href
                  "https://zoom.us/v2/phone/recording/download/abc";
              Worker.out_method := "GET";
              Worker.out_headers := [("Authorization", "Bearer tok")] |} ];
       Worker.result :=
         inr {| Worker.res_status := 200;
                Worker.res_headers := [("Content-Type", "audio/mpeg")];
                Worker.res_body := Some (Worker.BodyStream unit "bytes") |};
       Worker.cache_after := WorkerSample.warm |}.
Proof. reflexivity. Qed.

Lemma download_headers_are_filtered_witness :
  Forall (fun h => fst h = "Content-Type" \/ fst h = "Content-Disposition")
    (Worker.res_headers
       {| Worker.res_status := 200;
          Worker.res_headers := [("Content-Type", "audio/mpeg")];
          Worker.res_body := Some (Worker.BodyStream unit "bytes") |}).
Proof.
  apply (proj1
           (download_headers_are_filtered unit WorkerSample.parse_url
              WorkerSample.btoa
              (WorkerSample.download_of
                 "https://zoom.us/v2/phone/recording/download/abc")
              WorkerSample.env 0%Z 1%Z WorkerSample.token_denied
              WorkerSample.api_file WorkerSample.warm)).
  reflexivity.
Defined.

Lemma only_phone_routes_reach_zoom_witness :
  Worker.fetch unit WorkerSample.no_json WorkerSample.parse_url
    WorkerSample.btoa WorkerSample.post_recordings WorkerSample.env 0 1
    WorkerSample.fresh_token WorkerSample.api_file Worker.initial_cache
  = Worker.done Worker.initial_cache
      (inr {| Worker.res_status := 200; Worker.res_headers := [];
              Worker.res_body :=
                Some (Worker.BodyText unit "Recording Explorer backend") |}).
Proof.
  apply (proj2
           (only_phone_routes_reach_zoom unit WorkerSample.no_json
              WorkerSample.parse_url WorkerSample.btoa
              WorkerSample.post_recordings WorkerSample.env 0%Z 1%Z
              WorkerSample.fresh_token WorkerSample.api_file
              Worker.initial_cache)).
  discriminate.
Defined.

(** ** The stub of the meeting endpoint, seen through the hook *)

(** X21.  When the hook's meeting request is answered with the body of
    [handleGetMeetingRecordings], the hook returns the range of the stub,
    2025-11-01 to 2025-11-13, whatever range was asked for, and one record:
    the stub's session, dated at the stub's clock, hosted and named by
    "host@example.com", with one file of type MP4 and no size. *)
Theorem stub_meeting_through_the_hook from to pageSize meeting_net Date_parse
  (now : Z) :
  Http.fetchJson (meeting_net (meeting_url from to pageSize))
    = inr (Worker.fakeResponse (JSDate.toISOString now)) ->
  Date_parse (JSDate.toISOString now) = None
    \/ Date_parse (JSDate.toISOString now) = Some now ->
  exists r,
    fetchAllMeetingRecordings from to pageSize meeting_net Date_parse
    = inr {| fetched_from := "2025-11-01";
             fetched_to := "2025-11-13";
             fetched_recordings := [r] |}
    /\ id r = "dummy-uuid"
    /\ source r = Some meetings
    /\ date_time r = Some (JSDate.toISOString now)
    /\ caller_name r = Some "Test Meeting (stub)"
    /\ callee_name r = "host@example.com"
    /\ host_name r = Some "host@example.com"
    /\ host_email r = Some "host@example.com"
    /\ duration r = JS.Fin 45
    /\ file_size r = None
    /\ files_count r = Some 1
    /\ files_types r = Some ["MP4"].
Proof.
  intros Hnet Hparse.
  unfold fetchAllMeetingRecordings. rewrite Hnet. simpl.
  eexists. split; [reflexivity|]. simpl.
  repeat split.
  unfold firstStartIso. simpl. rewrite toISOString_truthy.
  destruct Hparse as [-> | ->]; simpl.
  - reflexivity.
  - unfold JS.or_opt. simpl. now rewrite toISOString_truthy.
Qed.

Lemma stub_meeting_through_the_hook_witness :
  exists r,
    fetchAllMeetingRecordings "2025-01-01" "2025-01-31" (JS.Fin 100)
      (fun _ => Sample.ok_reply (Worker.fakeResponse (JSDate.toISOString 0)))
      Sample.no_dates
    = inr {| fetched_from := "2025-11-01";
             fetched_to := "2025-11-13";
             fetched_recordings := [r] |}
    /\ id r = "dummy-uuid"
    /\ source r = Some meetings
    /\ date_time r = Some (JSDate.toISOString 0)
    /\ caller_name r = Some "Test Meeting (stub)"
    /\ callee_name r = "host@example.com"
    /\ host_name r = Some "host@example.com"
    /\ host_email r = Some "host@example.com"
    /\ duration r = JS.Fin 45
    /\ file_size r = None
    /\ files_count r = Some 1
    /\ files_types r = Some ["MP4"].
Proof.
  apply (stub_meeting_through_the_hook "2025-01-01" "2025-01-31" (JS.Fin 100)
           (fun _ =>
              Sample.ok_reply (Worker.fakeResponse (JSDate.toISOString 0)))
           Sample.no_dates 0%Z).
  - reflexivity.
  - left. reflexivity.
Defined.
